(** * Crime-Scene-Evidence-Classification: the ensemble detector and its UI

    A shallow embedding of [ensemble_model.py] (class
    [EnsembleEvidenceDetector]) and of the report logic of [ui.py], with the
    properties of the merged detection log, of the visualisation pass, of the
    boundary-aware label placement and of the files the analysis writes.

    Python floats (confidences, class ids and box corners as the detection
    library returns them) are modelled by the rationals [Q]: every finite
    binary64 value is a rational, and the code only converts them with
    [int()] and compares them.  The file system is a finite map from path
    strings to nodes; paths are compared as the strings the code builds. *)

From Stdlib Require Import ZArith QArith String Ascii List Permutation Sorted Lia.
From stdpp Require Import base gmap strings list sorting.
Close Scope Q_scope.
Local Open Scope string_scope.

(** ** Python built-ins *)

Module Py.

(** [int(x)] on a float: truncation toward zero. *)
Definition int (x : Q) : Z := Z.quot (Qnum x) (Z.pos (Qden x)).

(** [x > y] on floats. *)
Definition gt (x y : Q) : bool := negb (Qle_bool x y).

(** [s.startswith(prefix)]. *)
Fixpoint startswith (prefix s : string) : bool :=
  match prefix, s with
  | EmptyString, _ => true
  | String a p, String b r => Ascii.eqb a b && startswith p r
  | String _ _, EmptyString => false
  end.

(** [needle in hay] on strings. *)
Fixpoint contains (needle hay : string) : bool :=
  startswith needle hay ||
  match hay with
  | EmptyString => false
  | String _ r => contains needle r
  end.

(** [s.endswith(c)] for a one-character suffix. *)
Fixpoint endswith_char (c : ascii) (s : string) : bool :=
  match s with
  | EmptyString => false
  | String a EmptyString => Ascii.eqb a c
  | String _ r => endswith_char c r
  end.

(** [s.rpartition(sep)] for a one-character separator: the parts before and
    after the last [sep], or [None] when [s] has no [sep]. *)
Fixpoint rpartition (sep : ascii) (s : string) : option (string * string) :=
  match s with
  | EmptyString => None
  | String c r =>
      match rpartition sep r with
      | Some (a, b) => Some (String c a, b)
      | None => if Ascii.eqb c sep then Some (EmptyString, r) else None
      end
  end.

(** [s == c * len(s)]. *)
Fixpoint all_char (c : ascii) (s : string) : bool :=
  match s with
  | EmptyString => true
  | String a r => Ascii.eqb a c && all_char c r
  end.

(** [s.rstrip(c)]. *)
Fixpoint rstrip (c : ascii) (s : string) : string :=
  match s with
  | EmptyString => EmptyString
  | String a r =>
      match rstrip c r with
      | EmptyString => if Ascii.eqb a c then EmptyString else String a EmptyString
      | r' => String a r'
      end
  end.

End Py.

(** ** [posixpath] *)

Module Posixpath.

Definition sep : ascii := "/"%char.

(** [os.path.join(a, b)]. *)
Definition join (a b : string) : string :=
  if Py.startswith "/" b then b
  else if String.eqb a "" || Py.endswith_char sep a then a +:+ b
  else a +:+ "/" +:+ b.

(** [os.path.split(p)]: head (trailing slashes stripped unless it is the
    root) and tail (everything after the last slash). *)
Definition split (p : string) : string * string :=
  match Py.rpartition sep p with
  | Some (a, tail) =>
      let head := a +:+ "/" in
      (if Py.all_char sep head then head else Py.rstrip sep head, tail)
  | None => ("", p)
  end.

Definition dirname (p : string) : string := (split p).1.
Definition basename (p : string) : string := (split p).2.

(** [os.path.splitext(p)]: the extension starts at the last dot of the last
    component, unless only dots precede it there. *)
Definition splitext (p : string) : string * string :=
  let '(head, tail) :=
    match Py.rpartition sep p with
    | Some (a, b) => (a +:+ "/", b)
    | None => ("", p)
    end in
  match Py.rpartition "."%char tail with
  | Some (root, ext) =>
      if Py.all_char "."%char root then (p, "")
      else (head +:+ root, "." +:+ ext)
  | None => (p, "")
  end.

End Posixpath.

(** ** Data *)

Definition color : Type := Z * Z * Z.
Definition point : Type := Z * Z.

(** What [cv2.rectangle] and [cv2.putText] paint on an image. *)
Inductive draw_op : Type :=
| Rectangle (pt1 pt2 : point) (c : color) (thickness : Z)
| PutText (text : string) (org : point) (fontScale : Z) (c : color) (thickness : Z).

(** A decoded image: its shape, its samples, and what has been drawn on it
    since, oldest first. *)
Record image : Type := {
  shape_h : Z;
  shape_w : Z;
  pixels : list Z;
  overlays : list draw_op
}.

(** One element of [results[0].boxes]: class id, confidence and the
    [xyxy] corners, all floats. *)
Record yolo_box : Type := {
  cls : Q;
  conf : Q;
  xyxy : Q * Q * Q * Q
}.

(** A loaded model, as [predict(image, conf=0.001, iou=0.5)[0].boxes]. *)
Definition yolo_model : Type := image -> list yolo_box.

(** An entry of [master_log]. *)
Record log_entry : Type := {
  Source : string;
  Label : string;
  Conf : Q;
  Box : Q * Q * Q * Q
}.

(** A row of [csv_data]. *)
Record csv_row : Type := {
  Timestamp : string;
  Image : string;
  Model_Source : string;
  Evidence_Type : string;
  Confidence_Score : Q;
  Confidence_Text : string;
  Visualized : string;
  Coords : list Z
}.

(** ** The world: files, clock, inference calls *)

Inductive node : Type :=
| Dir
| ImageFile (img : image)
| CsvFile (rows : list csv_row)
| OtherFile.

Inductive model_role : Type := StandardModel | CustomModel.

(** The calls whose occurrence the properties speak of. *)
Inductive call : Type :=
| AnalyzeImage (image_path : string)
| Predict (role : model_role) (img : image).

Record world : Type := {
  fs : gmap string node;
  clock : nat;
  calls : list call
}.

Definition set_fs (f : gmap string node) (w : world) : world :=
  {| fs := f; clock := clock w; calls := calls w |}.

(** [OSError] and its subclasses, [TypeError], and [cv2.error]. *)
Inductive exn : Type := OSError | TypeError | Cv2Error.

Inductive outcome (A : Type) : Type :=
| Return (a : A)
| Raise (e : exn).
Arguments Return {A} a.
Arguments Raise {A} e.

(** Computations that read and change the world and may raise. *)
Definition io (A : Type) : Type := world -> outcome A * world.

Definition ret {A : Type} (a : A) : io A := fun w => (Return a, w).

Definition bind {A B : Type} (m : io A) (k : A -> io B) : io B := fun w =>
  match m w with
  | (Return a, w') => k a w'
  | (Raise e, w') => (Raise e, w')
  end.

Notation "'let!' x := m 'in' k" := (bind m (fun x => k))
  (at level 10, x name, m at level 100, k at level 200, only parsing).
Notation "m ;; k" := (bind m (fun _ => k))
  (at level 100, k at level 200, right associativity, only parsing).

Definition raise {A : Type} (e : exn) : io A := fun w => (Raise e, w).
Definition note_call (c : call) : io unit := fun w =>
  (Return tt, {| fs := fs w; clock := clock w; calls := (calls w ++ [c])%list |}).
Definition get_fs : io (gmap string node) := fun w => (Return (fs w), w).
Definition put_fs (f : gmap string node) : io unit := fun w => (Return tt, set_fs f w).

(** What the wrapped libraries compute and [config.py] defines. *)
Class Runtime : Type := {
  (** [cv2.getTextSize(text, FONT_HERSHEY_SIMPLEX, 1, 2)[0]]: width, height. *)
  getTextSize : string -> Z * Z;
  (** [f"{x:.{digits}%}"]. *)
  format_percent : nat -> Q -> string;
  (** [datetime.isoformat()] of the instant a clock reading stands for. *)
  isoformat : nat -> string;
  (** [YOLO(weights)]. *)
  YOLO : string -> yolo_model;
  (** [glob.glob(pattern)] for a pattern with wildcard characters. *)
  glob_magic : gmap string node -> string -> list string;
  OUTPUT_DIR : string;
  CSV_DIR : string;
  VISUALS_DIR : string;
  INPUT_DIR : string
}.

(** ** The wrapped libraries *)

Section Libraries.
Context `{!Runtime}.

(** The root directory: a non-empty run of slashes. *)
Definition is_root (p : string) : bool :=
  negb (String.eqb p "") && Py.all_char Posixpath.sep p.

(** [os.path.exists(p)] and [os.path.isdir(p)] on a file system. *)
Definition exists_in (f : gmap string node) (p : string) : bool :=
  is_root p || bool_decide (is_Some (f !! p)).

Definition isdir_in (f : gmap string node) (p : string) : bool :=
  is_root p || match f !! p with Some Dir => true | _ => false end.

(** The directory a new entry [p] goes into exists; an empty directory name
    stands for the working directory. *)
Definition parent_isdir (f : gmap string node) (p : string) : bool :=
  let d := Posixpath.dirname p in
  String.eqb d "" || isdir_in f d.

(** A file can be created or overwritten at [p]. *)
Definition writable (f : gmap string node) (p : string) : bool :=
  parent_isdir f p && negb (isdir_in f p).

Definition os_path_exists (p : string) : io bool :=
  let! f := get_fs in ret (exists_in f p).

(** [os.mkdir(name)]. *)
Definition os_mkdir (name : string) : io unit :=
  let! f := get_fs in
  if exists_in f name then raise OSError
  else if parent_isdir f name then put_fs (<[name := Dir]> f)
  else raise OSError.

(** [os.mkdir(name)] under [try: ... except OSError:] with [exist_ok]: the
    error is dropped when [name] is a directory all the same. *)
Definition mkdir_exist_ok (name : string) : io unit := fun w =>
  match os_mkdir name w with
  | (Raise e, w') =>
      if isdir_in (fs w') name then (Return tt, w') else (Raise e, w')
  | r => r
  end.

(** [os.makedirs(name, exist_ok=True)]: the missing ancestors are made
    first, then [name].  [fuel] bounds the climb to the ancestors, and the
    length of [name] is enough. *)
Fixpoint makedirs_from (fuel : nat) (name : string) : io unit :=
  let '(head, tail) := Posixpath.split name in
  let '(head, tail) :=
    if String.eqb tail "" then Posixpath.split head else (head, tail) in
  let! f := get_fs in
  if negb (String.eqb head "") && negb (String.eqb tail "")
     && negb (exists_in f head)
  then
    match fuel with
    | O => raise OSError
    | S fuel' => makedirs_from fuel' head
    end ;;
    if String.eqb tail "." then ret tt else mkdir_exist_ok name
  else mkdir_exist_ok name.

Definition os_makedirs (name : string) : io unit :=
  makedirs_from (String.length name) name.

(** [glob.has_magic]. *)
Definition has_magic (s : string) : bool :=
  Py.contains "*" s || Py.contains "?" s || Py.contains "[" s.

(** [glob.glob(pathname)]. *)
Definition glob_glob (pathname : string) : io (list string) :=
  let! f := get_fs in
  if has_magic pathname then ret (glob_magic f pathname)
  else
    let '(dirname, basename) := Posixpath.split pathname in
    if negb (String.eqb basename "") then
      ret (if exists_in f pathname then [pathname] else [])
    else ret (if isdir_in f dirname then [pathname] else []).

(** [cv2.imread(path)]: [None] when the file is missing or does not decode. *)
Definition cv2_imread (path : string) : io (option image) :=
  let! f := get_fs in
  ret (match f !! path with Some (ImageFile img) => Some img | _ => None end).

(** [cv2.imwrite(path, img)]: [False], and nothing written, when the file
    cannot be created. *)
Definition cv2_imwrite (path : string) (img : image) : io bool :=
  let! f := get_fs in
  if writable f path then put_fs (<[path := ImageFile img]> f) ;; ret true
  else ret false.

Definition cv2_rectangle (img : image) (pt1 pt2 : point) (c : color)
    (thickness : Z) : image :=
  {| shape_h := shape_h img; shape_w := shape_w img; pixels := pixels img;
     overlays := (overlays img ++ [Rectangle pt1 pt2 c thickness])%list |}.

Definition cv2_putText (img : image) (text : string) (org : point)
    (fontScale : Z) (c : color) (thickness : Z) : image :=
  {| shape_h := shape_h img; shape_w := shape_w img; pixels := pixels img;
     overlays := (overlays img ++ [PutText text org fontScale c thickness])%list |}.

(** [datetime.now().isoformat()]. *)
Definition datetime_now_isoformat : io string := fun w =>
  (Return (isoformat (clock w)),
   {| fs := fs w; clock := S (clock w); calls := calls w |}).

(** [model.predict(image, conf=0.001, iou=0.5, verbose=False)[0].boxes]. *)
Definition predict (role : model_role) (model : yolo_model) (img : image)
    : io (list yolo_box) :=
  note_call (Predict role img) ;;
  ret (model img).

(** A stable ascending sort on [Confidence_Score]. *)
Fixpoint insert_by_score (r : csv_row) (l : list csv_row) : list csv_row :=
  match l with
  | [] => [r]
  | x :: l' =>
      if Qle_bool (Confidence_Score r) (Confidence_Score x) then r :: l
      else x :: insert_by_score r l'
  end.

Definition argsort_by_score (l : list csv_row) : list csv_row :=
  foldr insert_by_score [] l.

(** [df.sort_values(by="Confidence_Score", ascending=False)]: the rows are
    reversed, sorted ascending and reversed again.  The library's default
    sort kind does not promise an order among equal scores. *)
Definition sort_values_desc (df : list csv_row) : list csv_row :=
  rev (argsort_by_score (rev df)).

(** [df.to_csv(path, index=False)]: raises when the parent directory is
    missing or [path] is a directory. *)
Definition to_csv (df : list csv_row) (path : string) : io unit :=
  let! f := get_fs in
  if writable f path then put_fs (<[path := CsvFile df]> f)
  else raise OSError.

End Libraries.

(** ** [ensemble_model.py]: class [EnsembleEvidenceDetector] *)

Record detector : Type := {
  model_standard : yolo_model;
  model_custom : option yolo_model;
  VISUAL_CUTOFF : Q;
  std_classes : gmap Z string;
  cust_classes : gmap Z string;
  colors : gmap string color
}.

(** Where a label's background rectangle and its text go. *)
Record label_geometry : Type := {
  bg_x1 : Z;
  bg_y1 : Z;
  bg_x2 : Z;
  bg_y2 : Z;
  text_x : Z;
  text_y : Z
}.

Section Detector.
Context `{!Runtime}.

(** The float the literal [0.30] denotes: 5404319552844595 / 2^54. *)
Definition float_0_30 : Q := 5404319552844595 # 18014398509481984.

(** The attributes [__init__] sets besides the two models. *)
Definition configure (standard : yolo_model) (custom : option yolo_model)
    : detector :=
  {| model_standard := standard;
     model_custom := custom;
     VISUAL_CUTOFF := float_0_30;
     std_classes :=
       list_to_map
         [ (0, "Person");
           (24, "Backpack"); (26, "Handbag"); (28, "Suitcase");
           (39, "Bottle"); (40, "Wine Glass"); (41, "Cup"); (45, "Bowl");
           (43, "Knife"); (76, "Scissors");
           (67, "Cell Phone"); (73, "Laptop"); (63, "TV/Monitor");
           (66, "Keyboard"); (64, "Mouse") ]%Z;
     cust_classes := list_to_map [ (0, "Gun"); (1, "Blood Stain") ]%Z;
     colors :=
       list_to_map
         [ ("biohazard", (0, 0, 139));
           ("weapon_gun", (0, 0, 255));
           ("weapon_knife", (0, 69, 255));
           ("person", (255, 255, 0));
           ("digital", (255, 0, 0));
           ("general", (0, 255, 255));
           ("text", (255, 255, 255));
           ("bg_label", (50, 50, 50)) ]%Z |}.

(** [EnsembleEvidenceDetector(standard_weights, custom_weights)]. *)
Definition __init__ (standard_weights custom_weights : string) : io detector :=
  let model_standard := YOLO standard_weights in
  let! found := os_path_exists custom_weights in
  let model_custom := if found then Some (YOLO custom_weights) else None in
  ret (configure model_standard model_custom).

(** The loop of a detection pass: every box whose class id is a key of
    [classes] is appended to [master_log]. *)
Definition log_boxes (source : string) (classes : gmap Z string)
    (boxes : list yolo_box) (master_log : list log_entry) : list log_entry :=
  foldl
    (fun master_log box =>
       let cls_id := Py.int (cls box) in
       match classes !! cls_id with
       | Some label =>
           (master_log ++
            [ {| Source := source; Label := label;
                 Conf := conf box; Box := xyxy box |} ])%list
       | None => master_log
       end)
    master_log boxes.

(** Passes 1 and 2 of [_analyze_image]. *)
Definition detect (self : detector) (image : image) : io (list log_entry) :=
  let master_log := [] in
  let! res_std := predict StandardModel (model_standard self) image in
  let master_log := log_boxes "Standard_Model" (std_classes self) res_std master_log in
  match model_custom self with
  | Some model_custom =>
      let! res_cust := predict CustomModel model_custom image in
      ret (log_boxes "Custom_Model" (cust_classes self) res_cust master_log)
  | None => ret master_log
  end.

(** The colour selection of pass 3. *)
Definition pick_color (self : detector) (label : string) : color :=
  if Py.contains "Blood" label then colors self !!! "biohazard"
  else if Py.contains "Gun" label then colors self !!! "weapon_gun"
  else if Py.contains "Knife" label then colors self !!! "weapon_knife"
  else if Py.contains "Person" label then colors self !!! "person"
  else if Py.contains "Phone" label || Py.contains "Laptop" label
       then colors self !!! "digital"
  else colors self !!! "general".

(** Boundary-aware label placement. *)
Definition place_label (x1 y1 text_w text_h img_w : Z) : label_geometry :=
  let bg_x1 := x1 in
  let bg_y1 := (y1 - text_h - 10)%Z in
  let bg_x2 := (x1 + text_w + 10)%Z in
  let bg_y2 := y1 in
  let text_x := (x1 + 5)%Z in
  let text_y := (y1 - 5)%Z in
  let '(bg_y1, bg_y2, text_y) :=
    if (y1 - text_h - 10 <? 0)%Z
    then (y1, (y1 + text_h + 10)%Z, (y1 + text_h + 5)%Z)
    else (bg_y1, bg_y2, text_y) in
  let '(bg_x1, bg_x2, text_x) :=
    if (x1 + text_w + 10 >? img_w)%Z
    then
      let shift_amount := ((x1 + text_w + 10) - img_w)%Z in
      ((bg_x1 - shift_amount)%Z, (bg_x2 - shift_amount)%Z,
       (text_x - shift_amount)%Z)
    else (bg_x1, bg_x2, text_x) in
  {| bg_x1 := bg_x1; bg_y1 := bg_y1; bg_x2 := bg_x2; bg_y2 := bg_y2;
     text_x := text_x; text_y := text_y |}.

(** The body of the loop of pass 3, for one entry of [master_log]. *)
Definition visualize_item (self : detector) (img_w img_h : Z)
    (base_name : string) (item : log_entry)
    (annotated_img : image) (csv_data : list csv_row)
    : io (image * list csv_row) :=
  let label := Label item in
  let conf := Conf item in
  let '(bx1, by1, bx2, by2) := Box item in
  let x1 := Py.int bx1 in
  let y1 := Py.int by1 in
  let x2 := Py.int bx2 in
  let y2 := Py.int by2 in
  let x1 := Z.max 0 x1 in
  let y1 := Z.max 0 y1 in
  let x2 := Z.min img_w x2 in
  let y2 := Z.min img_h y2 in
  let! now := datetime_now_isoformat in
  let csv_data :=
    (csv_data ++
    [ {| Timestamp := now;
         Image := base_name;
         Model_Source := Source item;
         Evidence_Type := label;
         Confidence_Score := conf;
         Confidence_Text := format_percent 2 conf;
         Visualized := if Py.gt conf (VISUAL_CUTOFF self) then "YES" else "NO";
         Coords := [x1; y1; x2; y2] |} ])%list in
  if Py.gt conf (VISUAL_CUTOFF self) then
    let c := pick_color self label in
    let annotated_img := cv2_rectangle annotated_img (x1, y1) (x2, y2) c 2 in
    let lbl := label +:+ " " +:+ format_percent 0 conf in
    let '(text_w, text_h) := getTextSize lbl in
    let g := place_label x1 y1 text_w text_h img_w in
    let annotated_img :=
      cv2_rectangle annotated_img (bg_x1 g, bg_y1 g) (bg_x2 g, bg_y2 g)
        (colors self !!! "bg_label") (-1) in
    let annotated_img :=
      cv2_putText annotated_img lbl (text_x g, text_y g) 1
        (colors self !!! "text") 2 in
    ret (annotated_img, csv_data)
  else ret (annotated_img, csv_data).

(** Pass 3: the loop over [master_log]. *)
Fixpoint visualize (self : detector) (img_w img_h : Z) (base_name : string)
    (master_log : list log_entry)
    (annotated_img : image) (csv_data : list csv_row)
    : io (image * list csv_row) :=
  match master_log with
  | [] => ret (annotated_img, csv_data)
  | item :: rest =>
      let! st := visualize_item self img_w img_h base_name item
                   annotated_img csv_data in
      visualize self img_w img_h base_name rest st.1 st.2
  end.

Definition report_path (csv_dir base_name : string) : string :=
  Posixpath.join csv_dir (base_name +:+ "_FULL_REPORT.csv").

Definition analysis_path (visuals_dir base_name : string) : string :=
  Posixpath.join visuals_dir (base_name +:+ "_ANALYSIS.jpg").

(** [self._analyze_image(image_path, csv_dir, visuals_dir)]. *)
Definition _analyze_image (self : detector)
    (image_path csv_dir visuals_dir : string)
    : io (option (image * list csv_row)) :=
  note_call (AnalyzeImage image_path) ;;
  let! image := cv2_imread image_path in
  match image with
  | None => ret None
  | Some image =>
      let base_name := (Posixpath.splitext (Posixpath.basename image_path)).1 in
      let img_h := shape_h image in
      let img_w := shape_w image in
      let! master_log := detect self image in
      let annotated_img := image in
      let csv_data := [] in
      let! st := visualize self img_w img_h base_name master_log
                   annotated_img csv_data in
      let '(annotated_img, csv_data) := st in
      (match csv_data with
       | [] => ret tt
       | _ :: _ =>
           let df := csv_data in
           let df := sort_values_desc df in
           to_csv df (report_path csv_dir base_name)
       end) ;;
      cv2_imwrite (analysis_path visuals_dir base_name) annotated_img ;;
      ret (Some (annotated_img, csv_data))
  end.

(** The loop of [process_directory]. *)
Fixpoint analyze_each (self : detector) (image_files : list string)
    (csv_dir visuals_dir : string) : io unit :=
  match image_files with
  | [] => ret tt
  | img_path :: rest =>
      _analyze_image self img_path csv_dir visuals_dir ;;
      analyze_each self rest csv_dir visuals_dir
  end.

(** [self.process_directory(input_dir, output_root)]. *)
Definition process_directory (self : detector) (input_dir output_root : string)
    : io unit :=
  let csv_dir := Posixpath.join output_root "evidence_logs" in
  let visuals_dir := Posixpath.join output_root "visuals" in
  let input_dir := Posixpath.join output_root "input" in
  os_makedirs csv_dir ;;
  os_makedirs visuals_dir ;;
  os_makedirs input_dir ;;
  let! image_files := glob_glob input_dir in
  analyze_each self image_files csv_dir visuals_dir ;;
  ret tt.

End Detector.

(** ** [ui.py]: what [main] does with an uploaded image *)

(** A row of [display_df]: Evidence Type, Confidence, Detection Model,
    Visualized. *)
Definition display_row : Type := string * string * string * string.

Record summary : Type := {
  df : list csv_row;
  high_conf_df : list csv_row;
  display_df : list display_row
}.

(** The element type of a numpy array made from a PIL image. *)
Inductive dtype : Type := np_bool | np_uint8 | np_uint16 | np_int32 | np_float32.

(** What [cv2.cvtColor] looks at in [np.array(image)]: the number of
    channels (one for a two-dimensional array) and the element type. *)
Record ndarray : Type := {
  array_channels : nat;
  array_dtype : dtype
}.

Section UI.
Context `{!Runtime}.

(** [cv2.cvtColor(src, cv2.COLOR_RGB2BGR)] takes three or four channels of
    8-bit, 16-bit unsigned or 32-bit float elements. *)
Definition cvtColor_accepts (src : ndarray) : bool :=
  (Nat.eqb (array_channels src) 3 || Nat.eqb (array_channels src) 4)
  && match array_dtype src with
     | np_uint8 | np_uint16 | np_float32 => true
     | np_bool | np_int32 => false
     end.

(** [cv2.cvtColor(src, cv2.COLOR_RGB2BGR)], whose result [main] does not
    use: it raises [cv2.error] on an array it does not take. *)
Definition cv2_cvtColor_RGB2BGR (src : ndarray) : io unit :=
  if cvtColor_accepts src then ret tt else raise Cv2Error.

(** The ANALYZE EVIDENCE button, for the array [np.array(image)] of the
    upload as PIL opened it and the path the upload was saved to: the array
    is converted, the detector built and the saved file analysed; unpacking
    the result raises when [_analyze_image] returned [None].  What is
    returned is what goes to [st.session_state]; the conversion of the
    annotated image to RGB only reorders the three channels [cv2.imread]
    gave it, and images here have no channel order. *)
Definition analyze_evidence (img_array : ndarray) (img_path : string)
    : io (image * list csv_row) :=
  cv2_cvtColor_RGB2BGR img_array ;;
  let! detector := __init__ "yolov8l.pt" "Custom_Model/weights/best.pt" in
  let! result := _analyze_image detector img_path CSV_DIR VISUALS_DIR in
  match result with
  | Some (annotated_img, csv_data) => ret (annotated_img, csv_data)
  | None => raise TypeError
  end.

(** The evidence summary built from [st.session_state['csv_data']]; [None]
    when there are no rows. *)
Definition evidence_summary (csv_data : list csv_row) : option summary :=
  match csv_data with
  | [] => None
  | _ :: _ =>
      let df := sort_values_desc csv_data in
      let high_conf_df :=
        List.filter (fun row => Py.gt (Confidence_Score row) float_0_30) df in
      let display_df :=
        map (fun row => (Evidence_Type row, Confidence_Text row,
                         Model_Source row, Visualized row)) high_conf_df in
      Some {| df := df; high_conf_df := high_conf_df; display_df := display_df |}
  end.

End UI.

(** *** [ui.py]: what the evidence summary shows *)

(** What [main] puts under EVIDENCE SUMMARY. *)
Inductive summary_view : Type :=
| NoEvidence
| NoHighConfidence
| FullReport (s : summary).

Section Report.
Context `{!Runtime}.

(** The three branches on [st.session_state['csv_data']] and on
    [high_conf_df.empty]. *)
Definition summary_view_of (csv_data : list csv_row) : summary_view :=
  match evidence_summary csv_data with
  | None => NoEvidence
  | Some s =>
      match high_conf_df s with
      | [] => NoHighConfidence
      | _ :: _ => FullReport s
      end
  end.

(** The TOTAL EVIDENCE metric: [len(high_conf_df)]. *)
Definition total_evidence (s : summary) : nat := length (high_conf_df s).

(** The PERSONS IDENTIFIED metric. *)
Definition persons (s : summary) : nat :=
  length (List.filter (fun row => String.eqb (Evidence_Type row) "Person")
            (high_conf_df s)).

(** The class of an evidence badge. *)
Definition badge_class (label : string) : string :=
  if Py.contains "Gun" label || Py.contains "Knife" label then "badge-weapon"
  else if Py.contains "Person" label then "badge-person"
  else if Py.contains "Phone" label || Py.contains "Laptop" label
       then "badge-digital"
  else "badge-general".

(** The badges of [evidence_html], in order: class, label, confidence. *)
Definition evidence_badges (s : summary) : list (string * string * string) :=
  map (fun row => (badge_class (Evidence_Type row), Evidence_Type row,
                   Confidence_Text row))
    (high_conf_df s).

End Report.

(** ** The properties, in the terms of the specification *)

Section Specification.
Context `{!Runtime}.

(** The class id of a detection is a key of [classes]. *)
Definition is_key (classes : gmap Z string) (box : yolo_box) : bool :=
  bool_decide (is_Some (classes !! Py.int (cls box))).

(** The log entry of a detection labelled via [classes]. *)
Definition entry_of (source : string) (classes : gmap Z string)
    (box : yolo_box) : log_entry :=
  {| Source := source; Label := classes !!! Py.int (cls box);
     Conf := conf box; Box := xyxy box |}.

(** The detections whose class id is a key of [classes], labelled. *)
Definition labelled (source : string) (classes : gmap Z string)
    (boxes : list yolo_box) : list log_entry :=
  map (entry_of source classes) (List.filter (is_key classes) boxes).

(** The merged detection log as the specification words it. *)
Definition merged_log (self : detector) (image : image) : list log_entry :=
  (labelled "Standard_Model" (std_classes self) (model_standard self image) ++
   match model_custom self with
   | Some custom => labelled "Custom_Model" (cust_classes self) (custom image)
   | None => []
   end)%list.

(** The inference calls of one analysis. *)
Definition predictions (self : detector) (image : image) : list call :=
  Predict StandardModel image ::
  match model_custom self with
  | Some _ => [Predict CustomModel image]
  | None => []
  end.

(** The corners of a box after [int()] and clamping. *)
Definition clamped (img_w img_h : Z) (box : Q * Q * Q * Q) : Z * Z * Z * Z :=
  let '(bx1, by1, bx2, by2) := box in
  (Z.max 0 (Py.int bx1), Z.max 0 (Py.int by1),
   Z.min img_w (Py.int bx2), Z.min img_h (Py.int by2)).

(** The CSV row of a log entry stamped [now]. *)
Definition row_for (self : detector) (img_w img_h : Z) (base_name now : string)
    (item : log_entry) : csv_row :=
  let '(x1, y1, x2, y2) := clamped img_w img_h (Box item) in
  {| Timestamp := now;
     Image := base_name;
     Model_Source := Source item;
     Evidence_Type := Label item;
     Confidence_Score := Conf item;
     Confidence_Text := format_percent 2 (Conf item);
     Visualized := if Py.gt (Conf item) (VISUAL_CUTOFF self) then "YES" else "NO";
     Coords := [x1; y1; x2; y2] |}.

(** The rows of a log whose first entry is stamped at clock reading [t]. *)
Fixpoint rows_from (self : detector) (img_w img_h : Z) (base_name : string)
    (t : nat) (log : list log_entry) : list csv_row :=
  match log with
  | [] => []
  | item :: rest =>
      row_for self img_w img_h base_name (isoformat t) item ::
      rows_from self img_w img_h base_name (S t) rest
  end.

(** The bounding box, label background and label text of an entry. *)
Definition box_and_label (self : detector) (img_w img_h : Z)
    (item : log_entry) : list draw_op :=
  let '(x1, y1, x2, y2) := clamped img_w img_h (Box item) in
  let lbl := Label item +:+ " " +:+ format_percent 0 (Conf item) in
  let g := place_label x1 y1 (getTextSize lbl).1 (getTextSize lbl).2 img_w in
  [ Rectangle (x1, y1) (x2, y2) (pick_color self (Label item)) 2;
    Rectangle (bg_x1 g, bg_y1 g) (bg_x2 g, bg_y2 g)
      (colors self !!! "bg_label") (-1);
    PutText lbl (text_x g, text_y g) 1 (colors self !!! "text") 2 ].

(** What pass 3 draws for an entry. *)
Definition drawing_for (self : detector) (img_w img_h : Z)
    (item : log_entry) : list draw_op :=
  if Py.gt (Conf item) (VISUAL_CUTOFF self)
  then box_and_label self img_w img_h item
  else [].

(** An image with more drawn on it. *)
Definition paint (img : image) (ops : list draw_op) : image :=
  {| shape_h := shape_h img; shape_w := shape_w img; pixels := pixels img;
     overlays := (overlays img ++ ops)%list |}.

(** The world after [n] clock readings and the calls [cs]. *)
Definition after (n : nat) (cs : list call) (w : world) : world :=
  {| fs := fs w; clock := n + clock w; calls := (calls w ++ cs)%list |}.

(** The file system after [cv2.imwrite(path, img)]. *)
Definition imwrite_fs (path : string) (img : image) (f : gmap string node)
    : gmap string node :=
  if writable f path then <[path := ImageFile img]> f else f.

Definition base_name_of (image_path : string) : string :=
  (Posixpath.splitext (Posixpath.basename image_path)).1.

(** Rows in descending order of [Confidence_Score]. *)
Definition sorted_desc (rows : list csv_row) : Prop :=
  StronglySorted
    (fun a b => (Confidence_Score b <= Confidence_Score a)%Q) rows.

(** The coordinates of a row lie within an image of the given size. *)
Definition coords_within (img_w img_h : Z) (row : csv_row) : Prop :=
  exists x1 y1 x2 y2 : Z,
    Coords row = [x1; y1; x2; y2] /\
    (0 <= x1)%Z /\ (0 <= y1)%Z /\ (x2 <= img_w)%Z /\ (y2 <= img_h)%Z.

(** The CSV files of a file system. *)
Definition csv_files (f : gmap string node) : list (string * list csv_row) :=
  omap (fun kv => match kv.2 with
                  | CsvFile rows => Some (kv.1, rows)
                  | _ => None
                  end) (map_to_list f).

End Specification.

(** A file system that differs from another only by directories made where
    there was nothing. *)
Definition grown_by_directories (f f' : gmap string node) : Prop :=
  forall p, f' !! p = f !! p \/ (f !! p = None /\ f' !! p = Some Dir).

(** ** A sample scene *)

Definition sample_image : image :=
  {| shape_h := 480; shape_w := 640; pixels := []; overlays := [] |}.

(** A person over the whole frame, a class the detector does not track, and
    a faint knife near the right edge. *)
Definition sample_standard : yolo_model := fun _ =>
  [ {| cls := 0 # 1; conf := 9 # 10;
       xyxy := (-7 # 2, 21 # 2, 700 # 1, 500 # 1)%Q |};
    {| cls := 1 # 1; conf := 9 # 10; xyxy := (0 # 1, 0 # 1, 1 # 1, 1 # 1)%Q |};
    {| cls := 43 # 1; conf := 1 # 10;
       xyxy := (600 # 1, 100 # 1, 630 # 1, 200 # 1)%Q |} ].

(** A gun near the right edge and a class the custom table lacks. *)
Definition sample_custom : yolo_model := fun _ =>
  [ {| cls := 0 # 1; conf := 1 # 2;
       xyxy := (600 # 1, 100 # 1, 630 # 1, 200 # 1)%Q |};
    {| cls := 2 # 1; conf := 1 # 2;
       xyxy := (10 # 1, 10 # 1, 20 # 1, 20 # 1)%Q |} ].

(** A model that sees only a car, a class the detector does not track. *)
Definition car_model : yolo_model := fun _ =>
  [ {| cls := 2 # 1; conf := 4 # 5;
       xyxy := (40 # 1, 60 # 1, 400 # 1, 300 # 1)%Q |} ].

Definition sample_runtime : Runtime :=
  {| getTextSize := fun s => (20 * Z.of_nat (String.length s), 22)%Z;
     format_percent := fun _ _ => "%";
     isoformat := fun _ => "T";
     YOLO := fun weights =>
       if String.eqb weights "yolov8l.pt" then sample_standard
       else sample_custom;
     glob_magic := fun _ _ => [];
     OUTPUT_DIR := "output";
     CSV_DIR := "output/evidence_logs";
     VISUALS_DIR := "output/visuals";
     INPUT_DIR := "output/input" |}.

Definition sample_fs : gmap string node :=
  list_to_map
    [ ("crime_scenes", Dir);
      ("crime_scenes/scene_1.png", ImageFile sample_image);
      ("crime_scenes/notes.txt", OtherFile);
      ("Custom_Model/weights/best.pt", OtherFile);
      ("output", Dir);
      ("output/evidence_logs", Dir);
      ("output/visuals", Dir) ].

Definition sample_world : world :=
  {| fs := sample_fs; clock := 0; calls := [] |}.

Definition sample_detector : detector :=
  configure sample_standard (Some sample_custom).

Definition car_detector : detector :=
  configure car_model None.

Definition sample_person : log_entry :=
  {| Source := "Standard_Model"; Label := "Person"; Conf := 9 # 10;
     Box := (-7 # 2, 21 # 2, 700 # 1, 500 # 1)%Q |}.

(** The arrays of an RGB upload and of a greyscale one. *)
Definition sample_rgb_array : ndarray :=
  {| array_channels := 3; array_dtype := np_uint8 |}.

Definition sample_grey_array : ndarray :=
  {| array_channels := 1; array_dtype := np_uint8 |}.

(** The gun of the sample scene: its box starts 40 left of the right edge, so
    its label does not fit to the right of x1. *)
Definition sample_gun : log_entry :=
  {| Source := "Custom_Model"; Label := "Gun"; Conf := 1 # 2;
     Box := (600 # 1, 100 # 1, 630 # 1, 200 # 1)%Q |}.

(** ** Proofs *)

(** Unfolds the monad's operations and reduces their matches. *)
Ltac run_io :=
  repeat (progress (unfold bind, note_call, get_fs, put_fs, ret, raise;
                    cbv beta iota)).

Section Properties.
Context `{!Runtime}.

(** *** Floats and strings *)

Lemma gt_true (x y : Q) : Py.gt x y = true <-> (y < x)%Q.
Proof.
  unfold Py.gt. rewrite negb_true_iff. split.
  - intros Hle. apply Qnot_le_lt. intros Hxy.
    apply Qle_bool_iff in Hxy. congruence.
  - intros Hlt. destruct (Qle_bool x y) eqn:E; [|reflexivity].
    apply Qle_bool_iff in E. exfalso. exact (Qlt_not_le _ _ Hlt E).
Qed.

Lemma gt_false (x y : Q) : Py.gt x y = false <-> (x <= y)%Q.
Proof.
  unfold Py.gt. rewrite negb_false_iff. apply Qle_bool_iff.
Qed.

Lemma append_assoc (s t u : string) : (s +:+ t) +:+ u = s +:+ (t +:+ u).
Proof.
  induction s as [|x s IH]; [done|].
  change (String x ((s +:+ t) +:+ u) = String x (s +:+ (t +:+ u))).
  by rewrite IH.
Qed.

Lemma endswith_char_append (c : ascii) (s t : string) :
  t <> "" -> Py.endswith_char c (s +:+ t) = Py.endswith_char c t.
Proof.
  intros Ht. induction s as [|a s IH]; [reflexivity|].
  change (String a s +:+ t) with (String a (s +:+ t)).
  simpl. destruct (s +:+ t) eqn:E.
  - destruct s; cbv in E; [congruence|discriminate].
  - by rewrite <- IH.
Qed.

Lemma endswith_char_join (c : ascii) (a b : string) :
  b <> "" -> Py.endswith_char c (Posixpath.join a b) = Py.endswith_char c b.
Proof.
  intros Hb. unfold Posixpath.join.
  destruct (Py.startswith "/" b); [reflexivity|].
  destruct (String.eqb a "" || Py.endswith_char Posixpath.sep a).
  - by apply endswith_char_append.
  - rewrite endswith_char_append; [|by destruct b].
    by apply (endswith_char_append c "/" b).
Qed.

Lemma report_is_not_analysis (csv_dir visuals_dir base_name : string) :
  report_path csv_dir base_name <> analysis_path visuals_dir base_name.
Proof.
  intros Heq.
  assert (Hr : Py.endswith_char "v" (report_path csv_dir base_name) = true).
  { unfold report_path. rewrite endswith_char_join.
    - by rewrite endswith_char_append.
    - by destruct base_name. }
  assert (Ha : Py.endswith_char "v" (analysis_path visuals_dir base_name) = false).
  { unfold analysis_path. rewrite endswith_char_join.
    - by rewrite endswith_char_append.
    - by destruct base_name. }
  congruence.
Qed.

(** *** Passes 1 and 2 *)

Lemma log_boxes_labelled (source : string) (classes : gmap Z string)
    (boxes : list yolo_box) (log : list log_entry) :
  log_boxes source classes boxes log
  = (log ++ labelled source classes boxes)%list.
Proof.
  unfold log_boxes, labelled.
  revert log. induction boxes as [|box boxes IH]; intros log; simpl.
  - by rewrite app_nil_r.
  - rewrite IH. unfold is_key at 2.
    destruct (classes !! Py.int (cls box)) as [label|] eqn:E.
    + rewrite bool_decide_eq_true_2 by eauto. simpl.
      unfold entry_of at 2. rewrite (lookup_total_correct _ _ _ E).
      by rewrite <- app_assoc.
    + rewrite bool_decide_eq_false_2; [done|].
      intros [? ?]; congruence.
Qed.

Lemma called_called (w : world) (a b : list call) :
  {| fs := fs w; clock := clock w; calls := ((calls w ++ a) ++ b)%list |}
  = after 0 (a ++ b) w.
Proof. unfold after. simpl. by rewrite app_assoc. Qed.

Lemma detect_merged (self : detector) (image : image) (w : world) :
  detect self image w
  = (Return (merged_log self image), after 0 (predictions self image) w).
Proof.
  unfold detect, merged_log, predictions, bind, predict, note_call, ret.
  simpl. destruct (model_custom self) as [custom|]; simpl.
  - rewrite !log_boxes_labelled. simpl. f_equal.
    apply (called_called w [_] [_]).
  - rewrite log_boxes_labelled, app_nil_r. reflexivity.
Qed.

(** *** Pass 3 *)

Lemma paint_nil (img : image) : paint img [] = img.
Proof. destruct img. unfold paint. simpl. by rewrite app_nil_r. Qed.

Lemma paint_paint (img : image) (a b : list draw_op) :
  paint (paint img a) b = paint img (a ++ b).
Proof. unfold paint. simpl. by rewrite app_assoc. Qed.

Lemma after_nothing (w : world) : after 0 [] w = w.
Proof. destruct w. unfold after. simpl. by rewrite app_nil_r. Qed.

Lemma after_after (n m : nat) (a b : list call) (w : world) :
  after n a (after m b w) = after (n + m) (b ++ a) w.
Proof.
  unfold after. simpl. f_equal; [lia|by rewrite app_assoc].
Qed.

Lemma visualize_item_run (self : detector) (img_w img_h : Z)
    (base_name : string) (item : log_entry) (annotated_img : image)
    (csv_data : list csv_row) (w : world) :
  visualize_item self img_w img_h base_name item annotated_img csv_data w
  = (Return (paint annotated_img (drawing_for self img_w img_h item),
             (csv_data ++
              [row_for self img_w img_h base_name (isoformat (clock w)) item])%list),
     after 1 [] w).
Proof.
  unfold visualize_item, drawing_for, box_and_label, row_for, clamped.
  destruct (Box item) as [[[bx1 by1] bx2] by2].
  unfold bind, datetime_now_isoformat, ret, after. simpl.
  rewrite app_nil_r.
  destruct (Py.gt (Conf item) (VISUAL_CUTOFF self)); simpl.
  - destruct (getTextSize _) as [text_w text_h] eqn:E. simpl.
    unfold cv2_putText, cv2_rectangle, paint. simpl.
    by rewrite <- !app_assoc.
  - by rewrite paint_nil.
Qed.

Lemma visualize_run (self : detector) (img_w img_h : Z) (base_name : string)
    (log : list log_entry) (annotated_img : image) (csv_data : list csv_row)
    (w : world) :
  visualize self img_w img_h base_name log annotated_img csv_data w
  = (Return (paint annotated_img (flat_map (drawing_for self img_w img_h) log),
             (csv_data ++
              rows_from self img_w img_h base_name (clock w) log)%list),
     after (length log) [] w).
Proof.
  revert annotated_img csv_data w.
  induction log as [|item rest IH]; intros annotated_img csv_data w; simpl.
  - unfold ret. by rewrite paint_nil, app_nil_r, after_nothing.
  - unfold bind. rewrite visualize_item_run. simpl. rewrite IH.
    rewrite paint_paint, <- app_assoc, after_after. simpl.
    do 2 f_equal. f_equal. lia.
Qed.

Lemma length_rows_from (self : detector) (img_w img_h : Z)
    (base_name : string) (t : nat) (log : list log_entry) :
  length (rows_from self img_w img_h base_name t log) = length log.
Proof.
  revert t. induction log as [|item rest IH]; intros t; simpl; [done|].
  by rewrite IH.
Qed.

(** *** The whole of [_analyze_image] *)

Lemma analyze_unreadable (self : detector)
    (image_path csv_dir visuals_dir : string) (w : world) :
  (cv2_imread image_path w).1 = Return None ->
  _analyze_image self image_path csv_dir visuals_dir w
  = (Return None, after 0 [AnalyzeImage image_path] w).
Proof.
  unfold _analyze_image, cv2_imread, bind, note_call, get_fs, ret. simpl.
  intros Hread.
  destruct (fs w !! image_path) as [[]|]; simpl in *; try done.
Qed.

Lemma analyze_readable (self : detector)
    (image_path csv_dir visuals_dir : string) (w : world) (image : image) :
  fs w !! image_path = Some (ImageFile image) ->
  let base_name := base_name_of image_path in
  let log := merged_log self image in
  let annotated_img :=
    paint image (flat_map (drawing_for self (shape_w image) (shape_h image)) log) in
  let csv_data :=
    rows_from self (shape_w image) (shape_h image) base_name (clock w) log in
  let w1 := after (length log) (AnalyzeImage image_path :: predictions self image) w in
  _analyze_image self image_path csv_dir visuals_dir w
  = match csv_data with
    | [] =>
        (Return (Some (annotated_img, csv_data)),
         set_fs (imwrite_fs (analysis_path visuals_dir base_name)
                   annotated_img (fs w)) w1)
    | _ :: _ =>
        if writable (fs w) (report_path csv_dir base_name)
        then
          (Return (Some (annotated_img, csv_data)),
           set_fs (imwrite_fs (analysis_path visuals_dir base_name)
                     annotated_img
                     (<[report_path csv_dir base_name :=
                          CsvFile (sort_values_desc csv_data)]> (fs w))) w1)
        else (Raise OSError, w1)
    end.
Proof.
  intros Hread base_name log annotated_img csv_data w1.
  assert (Hw : after (length log) []
                 (after 0 (predictions self image)
                    {| fs := fs w; clock := clock w;
                       calls := (calls w ++ [AnalyzeImage image_path])%list |})
               = w1).
  { subst w1. unfold after. cbn [fs clock calls].
    f_equal; try lia. by rewrite app_nil_r, <- app_assoc. }
  unfold _analyze_image.
  change (Posixpath.splitext (Posixpath.basename image_path)).1 with base_name.
  unfold cv2_imread. run_io. cbn [fs]. rewrite Hread. cbv beta iota.
  rewrite detect_merged. cbv beta iota. fold log.
  rewrite visualize_run. cbv beta iota.
  rewrite Hw. cbn [clock after Nat.add app].
  fold log. fold csv_data. fold annotated_img.
  assert (Hfs : fs w1 = fs w) by reflexivity.
  unfold to_csv, cv2_imwrite, imwrite_fs. run_io.
  destruct csv_data as [|row rows]; cbv beta iota.
  - rewrite Hfs. destruct (writable (fs w) _); reflexivity.
  - rewrite Hfs.
    destruct (writable (fs w) (report_path csv_dir base_name));
      cbv beta iota; [|done].
    cbn [fs set_fs].
    destruct (writable _ (analysis_path visuals_dir base_name)); reflexivity.
Qed.

(** *** Sorting *)

Lemma insert_by_score_perm (r : csv_row) (l : list csv_row) :
  Permutation (insert_by_score r l) (r :: l).
Proof.
  induction l as [|x l IH]; simpl; [done|].
  destruct (Qle_bool _ _); [done|].
  rewrite IH. apply perm_swap.
Qed.

Lemma argsort_by_score_perm (l : list csv_row) :
  Permutation (argsort_by_score l) l.
Proof.
  induction l as [|x l IH]; simpl; [done|].
  rewrite insert_by_score_perm. by constructor.
Qed.

Lemma sort_values_desc_perm (l : list csv_row) :
  Permutation (sort_values_desc l) l.
Proof.
  unfold sort_values_desc.
  rewrite <- Permutation_rev, argsort_by_score_perm.
  symmetry. apply Permutation_rev.
Qed.

Lemma insert_by_score_sorted (r : csv_row) (l : list csv_row) :
  StronglySorted (fun a b => (Confidence_Score a <= Confidence_Score b)%Q) l ->
  StronglySorted (fun a b => (Confidence_Score a <= Confidence_Score b)%Q)
    (insert_by_score r l).
Proof.
  induction 1 as [|x l Hl IH Hx]; simpl.
  - repeat constructor.
  - destruct (Qle_bool _ _) eqn:E.
    + apply Qle_bool_iff in E. constructor; [by constructor|].
      constructor; [done|].
      eapply Forall_impl; [exact Hx|]. simpl. intros y Hy.
      eapply Qle_trans; eassumption.
    + constructor; [done|].
      apply (Permutation_Forall (Permutation_sym (insert_by_score_perm r l))).
      constructor; [|done].
      apply Qlt_le_weak, Qnot_le_lt. intros Hle.
      apply Qle_bool_iff in Hle. congruence.
Qed.

Lemma argsort_by_score_sorted (l : list csv_row) :
  StronglySorted (fun a b => (Confidence_Score a <= Confidence_Score b)%Q)
    (argsort_by_score l).
Proof.
  induction l as [|x l IH]; simpl; [constructor|].
  by apply insert_by_score_sorted.
Qed.

Lemma sorted_rev {A : Type} (R : A -> A -> Prop) (l : list A) :
  StronglySorted R l -> StronglySorted (fun a b => R b a) (rev l).
Proof.
  induction 1 as [|x l Hl IH Hx]; simpl; [constructor|].
  apply StronglySorted_app_2; [|done|repeat constructor].
  intros a b Ha Hb. apply list_elem_of_singleton in Hb as ->.
  rewrite Forall_forall in Hx. apply Hx.
  apply list_elem_of_In, in_rev. by apply list_elem_of_In.
Qed.

Lemma sort_values_desc_sorted (l : list csv_row) :
  sorted_desc (sort_values_desc l).
Proof.
  unfold sorted_desc, sort_values_desc.
  apply (sorted_rev (fun a b => (Confidence_Score a <= Confidence_Score b)%Q)).
  apply argsort_by_score_sorted.
Qed.

Lemma sorted_filter {A : Type} (R : A -> A -> Prop) (f : A -> bool)
    (l : list A) :
  StronglySorted R l -> StronglySorted R (List.filter f l).
Proof.
  induction 1 as [|x l Hl IH Hx]; simpl; [constructor|].
  destruct (f x); [|done].
  constructor; [done|].
  rewrite Forall_forall in *. intros y Hy.
  apply Hx. apply list_elem_of_In. apply list_elem_of_In in Hy.
  apply List.filter_In in Hy. tauto.
Qed.

(** *** Rows and drawings of a log *)

Lemma rows_and_drawings (self : detector) (img_w img_h : Z)
    (base_name : string) (t : nat) (log : list log_entry) :
  Forall3
    (fun item row ops =>
       row = row_for self img_w img_h base_name (Timestamp row) item /\
       ops = drawing_for self img_w img_h item)
    log (rows_from self img_w img_h base_name t log)
    (map (drawing_for self img_w img_h) log).
Proof.
  revert t. induction log as [|item rest IH]; intros t; simpl.
  - constructor.
  - constructor; [|apply IH].
    split; [|done]. unfold row_for.
    by destruct (clamped img_w img_h (Box item)) as [[[? ?] ?] ?].
Qed.

Lemma row_for_fields (self : detector) (img_w img_h : Z)
    (base_name now : string) (item : log_entry) :
  let row := row_for self img_w img_h base_name now item in
  Model_Source row = Source item /\
  Evidence_Type row = Label item /\
  Confidence_Score row = Conf item /\
  Visualized row
  = (if Py.gt (Conf item) (VISUAL_CUTOFF self) then "YES" else "NO") /\
  coords_within img_w img_h row.
Proof.
  unfold row_for, clamped, coords_within.
  destruct (Box item) as [[[bx1 by1] bx2] by2]. simpl.
  repeat split; try done.
  eexists _, _, _, _. split; [reflexivity|]. lia.
Qed.

Lemma rows_from_fields (self : detector) (img_w img_h : Z)
    (base_name : string) (t : nat) (log : list log_entry) :
  Forall2
    (fun item row =>
       Model_Source row = Source item /\
       Evidence_Type row = Label item /\
       Confidence_Score row = Conf item /\
       Visualized row
       = (if Py.gt (Conf item) (VISUAL_CUTOFF self) then "YES" else "NO") /\
       coords_within img_w img_h row)
    log (rows_from self img_w img_h base_name t log).
Proof.
  revert t. induction log as [|item rest IH]; intros t; simpl.
  - constructor.
  - constructor; [|apply IH]. apply row_for_fields.
Qed.

Lemma class_table_values (table : list (Z * string)) (k : Z) (label : string) :
  (list_to_map table : gmap Z string) !! k = Some label ->
  label ∈ table.*2.
Proof.
  intros Hk. apply elem_of_list_to_map_2 in Hk.
  apply list_elem_of_fmap. by exists (k, label).
Qed.

Lemma labelled_entries (source : string) (classes : gmap Z string)
    (boxes : list yolo_box) :
  Forall
    (fun e => Source e = source /\
              exists k, classes !! k = Some (Label e))
    (labelled source classes boxes).
Proof.
  unfold labelled. apply Forall_forall. intros e He.
  apply list_elem_of_fmap in He as (box & -> & Hbox).
  apply list_elem_of_In, List.filter_In in Hbox as [_ Hkey].
  unfold is_key in Hkey. apply bool_decide_eq_true in Hkey as [label Hl].
  split; [done|]. exists (Py.int (cls box)). simpl.
  by rewrite (lookup_total_correct _ _ _ Hl).
Qed.

(** *** The merged log *)

(** C1. For a readable image, passes 1 and 2 of [_analyze_image] build the
    merged log as the standard model's detections whose class id is a key of
    [std_classes], labelled through it with source "Standard_Model",
    followed, when the custom model is loaded, by the custom model's
    detections whose class id is a key of [cust_classes], labelled through it
    with source "Custom_Model"; no other detection enters the log, and the
    rows [_analyze_image] returns are those of this log, in order. *)
Theorem merged_log_concatenates_both_passes (self : detector)
    (image_path csv_dir visuals_dir : string) (w : world) (image : image) :
  fs w !! image_path = Some (ImageFile image) ->
  writable (fs w) (report_path csv_dir (base_name_of image_path)) = true ->
  let merged :=
    (map (entry_of "Standard_Model" (std_classes self))
       (List.filter (is_key (std_classes self)) (model_standard self image)) ++
     match model_custom self with
     | Some custom =>
         map (entry_of "Custom_Model" (cust_classes self))
           (List.filter (is_key (cust_classes self)) (custom image))
     | None => []
     end)%list in
  (forall w0, (detect self image w0).1 = Return merged) /\
  exists annotated_img csv_data w',
    _analyze_image self image_path csv_dir visuals_dir w
    = (Return (Some (annotated_img, csv_data)), w') /\
    Forall2
      (fun item row =>
         Model_Source row = Source item /\
         Evidence_Type row = Label item /\
         Confidence_Score row = Conf item)
      merged csv_data.
Proof.
  intros Hread Hwritable merged.
  change merged with (merged_log self image).
  split; [intros w0; by rewrite detect_merged|].
  pose proof (analyze_readable self image_path csv_dir visuals_dir w image Hread)
    as Hrun. cbv zeta in Hrun.
  rewrite Hwritable in Hrun.
  set (csv_data := rows_from self (shape_w image) (shape_h image)
                     (base_name_of image_path) (clock w)
                     (merged_log self image)) in *.
  assert (Hrows : Forall2
      (fun item row =>
         Model_Source row = Source item /\
         Evidence_Type row = Label item /\
         Confidence_Score row = Conf item)
      (merged_log self image) csv_data).
  { eapply Forall2_impl; [apply rows_from_fields|]. simpl. tauto. }
  destruct csv_data as [|row rows]; eauto.
Qed.

(** C7. With the class tables [__init__] sets, every entry of the merged
    log whose source is "Custom_Model" is labelled "Gun" or "Blood Stain",
    and no entry whose source is "Standard_Model" carries either label. *)
Theorem custom_model_contributes_gun_and_blood (standard : yolo_model)
    (custom : option yolo_model) (image : image) (w : world) :
  exists log w',
    detect (configure standard custom) image w = (Return log, w') /\
    Forall
      (fun e =>
         (Source e = "Custom_Model" ->
          Label e = "Gun" \/ Label e = "Blood Stain") /\
         (Source e = "Standard_Model" ->
          Label e <> "Gun" /\ Label e <> "Blood Stain"))
      log.
Proof.
  eexists _, _. split; [apply detect_merged|].
  unfold merged_log. apply Forall_app. split.
  - eapply Forall_impl; [apply labelled_entries|].
    intros e [Hsrc [k Hk]]. unfold configure in Hk. cbn [std_classes] in Hk.
    apply class_table_values in Hk. rewrite Hsrc.
    split; [discriminate|]. intros _.
    set_unfold in Hk. destruct Hk as [[? ?] [-> Hk]].
    simpl. repeat (destruct Hk as [Hk|Hk]; [inversion Hk; subst; done|]).
    done.
  - destruct custom as [custom|]; [|constructor].
    eapply Forall_impl; [apply labelled_entries|].
    intros e [Hsrc [k Hk]]. unfold configure in Hk. cbn [cust_classes] in Hk.
    apply class_table_values in Hk. rewrite Hsrc.
    split; [|discriminate]. intros _.
    set_unfold in Hk. destruct Hk as [[? ?] [-> Hk]].
    simpl. destruct Hk as [Hk|[Hk|Hk]]; [inversion Hk; auto..|done].
Qed.

(** *** Label placement *)

Lemma drawn_item_run (self : detector) (img_w img_h : Z) (base_name : string)
    (item : log_entry) (annotated_img : image) (csv_data : list csv_row)
    (w : world) :
  (VISUAL_CUTOFF self < Conf item)%Q ->
  exists csv_data' w',
    visualize_item self img_w img_h base_name item annotated_img csv_data w
    = (Return (paint annotated_img (box_and_label self img_w img_h item),
               csv_data'), w').
Proof.
  intros Hconf. apply gt_true in Hconf.
  eexists _, _. rewrite visualize_item_run.
  unfold drawing_for. by rewrite Hconf.
Qed.

(** C3. For every detection that is drawn, the label background sits above
    the bounding box, from y1 - text_h - 10 to y1, and is flipped to hang
    from the box's top edge, from y1 to y1 + text_h + 10, exactly when
    y1 - text_h - 10 < 0. *)
Theorem label_flips_below_exactly_at_top_edge (self : detector)
    (img_w img_h : Z) (base_name : string) (item : log_entry)
    (annotated_img : image) (csv_data : list csv_row) (w : world) :
  (VISUAL_CUTOFF self < Conf item)%Q ->
  exists (x1 y1 x2 y2 : Z) (lbl : string) (g : label_geometry)
         (box_rect label_text : draw_op) csv_data' w',
    clamped img_w img_h (Box item) = (x1, y1, x2, y2) /\
    lbl = Label item +:+ " " +:+ format_percent 0 (Conf item) /\
    visualize_item self img_w img_h base_name item annotated_img csv_data w
    = (Return
         (paint annotated_img
            [ box_rect;
              Rectangle (bg_x1 g, bg_y1 g) (bg_x2 g, bg_y2 g)
                (colors self !!! "bg_label") (-1);
              label_text ],
          csv_data'), w') /\
    let text_h := (getTextSize lbl).2 in
    ((y1 - text_h - 10 < 0)%Z ->
     bg_y1 g = y1 /\ bg_y2 g = (y1 + text_h + 10)%Z) /\
    ((0 <= y1 - text_h - 10)%Z ->
     bg_y1 g = (y1 - text_h - 10)%Z /\ bg_y2 g = y1).
Proof.
  intros Hconf.
  destruct (drawn_item_run self img_w img_h base_name item annotated_img
              csv_data w Hconf) as (csv_data' & w' & Hrun).
  unfold box_and_label in Hrun.
  destruct (clamped img_w img_h (Box item)) as [[[x1 y1] x2] y2].
  eexists x1, y1, x2, y2, _, _, _, _, csv_data', w'.
  split; [reflexivity|]. split; [reflexivity|]. split; [exact Hrun|].
  unfold place_label. cbv zeta.
  destruct (Z.ltb_spec (y1 - (getTextSize
              (Label item +:+ " " +:+ format_percent 0 (Conf item))).2 - 10) 0);
    destruct (_ >? img_w)%Z; simpl; split; intros; try lia; done.
Qed.

(** C6. For every detection that is drawn, the label background ends at or
    before the right image edge: when x1 + text_w + 10 exceeds img_w, the
    background and the text are moved left by exactly
    (x1 + text_w + 10) - img_w; otherwise they stay where they were. *)
Theorem label_background_stays_left_of_right_edge (self : detector)
    (img_w img_h : Z) (base_name : string) (item : log_entry)
    (annotated_img : image) (csv_data : list csv_row) (w : world) :
  (VISUAL_CUTOFF self < Conf item)%Q ->
  exists (x1 y1 x2 y2 : Z) (lbl : string) (g : label_geometry)
         (box_rect : draw_op) csv_data' w',
    clamped img_w img_h (Box item) = (x1, y1, x2, y2) /\
    lbl = Label item +:+ " " +:+ format_percent 0 (Conf item) /\
    visualize_item self img_w img_h base_name item annotated_img csv_data w
    = (Return
         (paint annotated_img
            [ box_rect;
              Rectangle (bg_x1 g, bg_y1 g) (bg_x2 g, bg_y2 g)
                (colors self !!! "bg_label") (-1);
              PutText lbl (text_x g, text_y g) 1 (colors self !!! "text") 2 ],
          csv_data'), w') /\
    let text_w := (getTextSize lbl).1 in
    let shift_amount := ((x1 + text_w + 10) - img_w)%Z in
    (bg_x2 g <= img_w)%Z /\
    ((x1 + text_w + 10 > img_w)%Z ->
     bg_x1 g = (x1 - shift_amount)%Z /\
     bg_x2 g = (x1 + text_w + 10 - shift_amount)%Z /\
     text_x g = (x1 + 5 - shift_amount)%Z) /\
    ((x1 + text_w + 10 <= img_w)%Z ->
     bg_x1 g = x1 /\ bg_x2 g = (x1 + text_w + 10)%Z /\
     text_x g = (x1 + 5)%Z).
Proof.
  intros Hconf.
  destruct (drawn_item_run self img_w img_h base_name item annotated_img
              csv_data w Hconf) as (csv_data' & w' & Hrun).
  unfold box_and_label in Hrun.
  destruct (clamped img_w img_h (Box item)) as [[[x1 y1] x2] y2].
  eexists x1, y1, x2, y2, _, _, _, csv_data', w'.
  split; [reflexivity|]. split; [reflexivity|]. split; [exact Hrun|].
  unfold place_label. cbv zeta.
  destruct (_ <? 0)%Z;
    destruct (Z.gtb_spec (x1 + (getTextSize
                (Label item +:+ " " +:+ format_percent 0 (Conf item))).1 + 10)
                img_w);
    simpl; repeat split; intros; try lia.
Qed.

(** *** Files *)

Lemma imwrite_fs_other (path p : string) (img : image) (f : gmap string node) :
  p <> path -> imwrite_fs path img f !! p = f !! p.
Proof.
  intros Hp. unfold imwrite_fs. destruct (writable f path); [|done].
  by rewrite lookup_insert_ne.
Qed.

Lemma imwrite_fs_csv (path p : string) (img : image) (f : gmap string node)
    (rows : list csv_row) :
  imwrite_fs path img f !! p = Some (CsvFile rows) ->
  f !! p = Some (CsvFile rows).
Proof.
  unfold imwrite_fs. destruct (writable f path); [|done].
  destruct (decide (path = p)) as [->|Hne].
  - by rewrite lookup_insert_eq.
  - by rewrite lookup_insert_ne.
Qed.

Lemma imwrite_fs_written (path : string) (img : image) (f : gmap string node) :
  writable f path = true ->
  imwrite_fs path img f !! path = Some (ImageFile img).
Proof.
  intros Hw. unfold imwrite_fs. rewrite Hw. apply lookup_insert_eq.
Qed.

Lemma writable_after_report (f : gmap string node) (p q : string)
    (rows : list csv_row) :
  p <> q -> writable f p = true -> writable f q = true ->
  writable (<[p := CsvFile rows]> f) q = true.
Proof.
  unfold writable, parent_isdir, isdir_in. intros Hpq Hp Hq.
  apply andb_true_iff in Hp as [_ Hp]. apply negb_true_iff in Hp.
  apply orb_false_iff in Hp as [Hroot Hp].
  apply andb_true_iff in Hq as [Hparent Hq].
  apply andb_true_iff. split.
  - destruct (String.eqb (Posixpath.dirname q) ""); [done|]. simpl in *.
    destruct (is_root (Posixpath.dirname q)) eqn:Er; [done|]. simpl in *.
    destruct (decide (p = Posixpath.dirname q)) as [Heq|Hne].
    + rewrite <- Heq in Hparent. by rewrite Hp in Hparent.
    + by rewrite lookup_insert_ne.
  - by rewrite lookup_insert_ne.
Qed.

(** *** The rows and the summary table *)

Lemma rows_visualized (self : detector) (img_w img_h : Z) (base_name : string)
    (t : nat) (log : list log_entry) :
  Forall
    (fun row =>
       Visualized row
       = (if Py.gt (Confidence_Score row) (VISUAL_CUTOFF self)
          then "YES" else "NO"))
    (rows_from self img_w img_h base_name t log).
Proof.
  revert t. induction log as [|item rest IH]; intros t; simpl.
  - constructor.
  - constructor; [|apply IH].
    unfold row_for. by destruct (clamped _ _ _) as [[[? ?] ?] ?].
Qed.

Lemma rows_within (self : detector) (img_w img_h : Z) (base_name : string)
    (t : nat) (log : list log_entry) :
  Forall (coords_within img_w img_h)
    (rows_from self img_w img_h base_name t log).
Proof.
  revert t. induction log as [|item rest IH]; intros t; simpl.
  - constructor.
  - constructor; [|apply IH]. apply row_for_fields.
Qed.

Lemma summary_of_rows (csv_data : list csv_row) (s : summary) :
  evidence_summary csv_data = Some s ->
  df s = sort_values_desc csv_data /\
  high_conf_df s
  = List.filter (fun row => Py.gt (Confidence_Score row) float_0_30) (df s).
Proof.
  unfold evidence_summary. destruct csv_data; [done|].
  intros [= <-]. done.
Qed.

(** The file system once the report, if any, has been saved. *)
Lemma analyze_writable (self : detector)
    (image_path csv_dir visuals_dir : string) (w : world) (image : image) :
  fs w !! image_path = Some (ImageFile image) ->
  writable (fs w) (report_path csv_dir (base_name_of image_path)) = true ->
  let base_name := base_name_of image_path in
  let log := merged_log self image in
  let annotated_img :=
    paint image (flat_map (drawing_for self (shape_w image) (shape_h image)) log) in
  let csv_data :=
    rows_from self (shape_w image) (shape_h image) base_name (clock w) log in
  _analyze_image self image_path csv_dir visuals_dir w
  = (Return (Some (annotated_img, csv_data)),
     set_fs
       (imwrite_fs (analysis_path visuals_dir base_name) annotated_img
          match csv_data with
          | [] => fs w
          | _ :: _ =>
              <[report_path csv_dir base_name :=
                  CsvFile (sort_values_desc csv_data)]> (fs w)
          end)
       (after (length log) (AnalyzeImage image_path :: predictions self image) w)).
Proof.
  intros Hread Hwritable. cbv zeta.
  pose proof (analyze_readable self image_path csv_dir visuals_dir w image Hread)
    as Hrun. cbv zeta in Hrun.
  rewrite Hwritable in Hrun. rewrite Hrun.
  by destruct (rows_from _ _ _ _ _ _).
Qed.

(** *** The visualisation cut-off *)

(** C2. For every detection of the merged log, the bounding box and the
    label are drawn on the annotated image if and only if its confidence is
    strictly greater than VISUAL_CUTOFF (0.30), its CSV row is marked "YES"
    under the same condition and "NO" otherwise, and the rows the UI keeps as
    high-confidence are exactly the rows marked "YES". *)
Theorem visualized_yes_iff_box_drawn (standard : yolo_model)
    (custom : option yolo_model) (image_path csv_dir visuals_dir : string)
    (w : world) (image : image) :
  let self := configure standard custom in
  fs w !! image_path = Some (ImageFile image) ->
  writable (fs w) (report_path csv_dir (base_name_of image_path)) = true ->
  exists annotated_img csv_data drawn w',
    _analyze_image self image_path csv_dir visuals_dir w
    = (Return (Some (annotated_img, csv_data)), w') /\
    overlays annotated_img = (overlays image ++ concat drawn)%list /\
    Forall3
      (fun item row ops =>
         ((float_0_30 < Conf item)%Q ->
          Visualized row = "YES" /\
          ops = box_and_label self (shape_w image) (shape_h image) item) /\
         (~ (float_0_30 < Conf item)%Q ->
          Visualized row = "NO" /\ ops = []))
      (merged_log self image) csv_data drawn /\
    forall s, evidence_summary csv_data = Some s ->
      high_conf_df s
      = List.filter (fun row => String.eqb (Visualized row) "YES") (df s).
Proof.
  intros self Hread Hwritable.
  eexists _, _, (map (drawing_for self (shape_w image) (shape_h image))
                   (merged_log self image)), _.
  split; [by apply analyze_writable|].
  split; [simpl; by rewrite flat_map_concat_map|].
  split.
  - eapply Forall3_impl; [apply rows_and_drawings|].
    intros item row ops [-> ->].
    pose proof (row_for_fields self (shape_w image) (shape_h image)
                  (base_name_of image_path) (Timestamp row) item) as Hf.
    cbv zeta in Hf. destruct Hf as (_ & _ & _ & -> & _).
    unfold drawing_for. change (VISUAL_CUTOFF self) with float_0_30.
    destruct (Py.gt (Conf item) float_0_30) eqn:E.
    + apply gt_true in E. split; [done|]. intros Hn. by destruct Hn.
    + split; [|done]. intros Hlt. apply gt_true in Hlt. congruence.
  - intros s Hs. apply summary_of_rows in Hs as [Hdf ->].
    apply List.filter_ext_in. intros row Hrow.
    rewrite Hdf in Hrow.
    apply (Permutation_in _ (sort_values_desc_perm _)) in Hrow.
    apply list_elem_of_In in Hrow.
    pose proof (rows_visualized self (shape_w image) (shape_h image)
                  (base_name_of image_path) (clock w) (merged_log self image))
      as Hv.
    rewrite Forall_forall in Hv. rewrite (Hv row Hrow).
    change (VISUAL_CUTOFF self) with float_0_30.
    by destruct (Py.gt (Confidence_Score row) float_0_30).
Qed.

(** *** Clamped coordinates *)

(** C8. Every row [_analyze_image] returns, and every row of the CSV
    report it writes, has its Coords clamped to the image: 0 <= x1, 0 <= y1,
    x2 <= img_w and y2 <= img_h, whatever corners the models returned. *)
Theorem coords_clamped_to_image (self : detector)
    (image_path csv_dir visuals_dir : string) (w : world) (image : image) :
  fs w !! image_path = Some (ImageFile image) ->
  writable (fs w) (report_path csv_dir (base_name_of image_path)) = true ->
  exists annotated_img csv_data w',
    _analyze_image self image_path csv_dir visuals_dir w
    = (Return (Some (annotated_img, csv_data)), w') /\
    Forall (coords_within (shape_w image) (shape_h image)) csv_data /\
    (csv_data <> [] ->
     exists rows,
       fs w' !! report_path csv_dir (base_name_of image_path)
       = Some (CsvFile rows) /\
       length rows = length csv_data /\
       Forall (coords_within (shape_w image) (shape_h image)) rows).
Proof.
  intros Hread Hwritable.
  eexists _, _, _. split; [by apply analyze_writable|].
  split; [apply rows_within|].
  intros Hrows. eexists. simpl.
  rewrite imwrite_fs_other by apply report_is_not_analysis.
  destruct (rows_from _ _ _ _ _ _) eqn:E; [done|]. rewrite <- E.
  rewrite lookup_insert_eq. split; [reflexivity|]. split.
  - apply Permutation_length, sort_values_desc_perm.
  - eapply Permutation_Forall.
    + symmetry. apply sort_values_desc_perm.
    + apply rows_within.
Qed.

(** *** The saved files *)

Lemma analyze_new_csv_is_sorted (self : detector)
    (image_path csv_dir visuals_dir : string) (w : world)
    (p : string) (rows : list csv_row) :
  fs (_analyze_image self image_path csv_dir visuals_dir w).2 !! p
  = Some (CsvFile rows) ->
  fs w !! p = Some (CsvFile rows) \/ sorted_desc rows.
Proof.
  destruct (fs w !! image_path) as [[|image| |]|] eqn:Hread;
    try (rewrite analyze_unreadable;
         [by left | unfold cv2_imread; run_io; by rewrite Hread]).
  pose proof (analyze_readable self image_path csv_dir visuals_dir w image Hread)
    as Hrun. cbv zeta in Hrun. rewrite Hrun. clear Hrun.
  destruct (rows_from _ _ _ _ _ _) as [|row rest] eqn:E.
  - simpl. intros Hp. left. by apply imwrite_fs_csv in Hp.
  - rewrite <- E.
    destruct (writable (fs w) _); simpl; [|by left].
    intros Hp. apply imwrite_fs_csv in Hp.
    destruct (decide (report_path csv_dir (base_name_of image_path) = p))
      as [<-|Hne].
    + rewrite lookup_insert_eq in Hp. injection Hp as <-.
      right. apply sort_values_desc_sorted.
    + rewrite lookup_insert_ne in Hp by done. by left.
Qed.

Lemma analyze_new_csv_holds_the_rows (self : detector)
    (image_path csv_dir visuals_dir : string) (w : world)
    (p : string) (rows : list csv_row) :
  fs (_analyze_image self image_path csv_dir visuals_dir w).2 !! p
  = Some (CsvFile rows) ->
  fs w !! p = Some (CsvFile rows) \/
  (sorted_desc rows /\
   exists annotated_img csv_data,
     (_analyze_image self image_path csv_dir visuals_dir w).1
     = Return (Some (annotated_img, csv_data)) /\
     Permutation rows csv_data).
Proof.
  destruct (fs w !! image_path) as [[|image| |]|] eqn:Hread;
    try (rewrite analyze_unreadable;
         [by left | unfold cv2_imread; run_io; by rewrite Hread]).
  pose proof (analyze_readable self image_path csv_dir visuals_dir w image Hread)
    as Hrun. cbv zeta in Hrun. rewrite Hrun. clear Hrun.
  destruct (rows_from _ _ _ _ _ _) as [|row rest] eqn:E.
  - simpl. intros Hp. left. by apply imwrite_fs_csv in Hp.
  - rewrite <- E.
    destruct (writable (fs w) _); simpl; [|by left].
    intros Hp. apply imwrite_fs_csv in Hp.
    destruct (decide (report_path csv_dir (base_name_of image_path) = p))
      as [<-|Hne].
    + rewrite lookup_insert_eq in Hp. injection Hp as <-.
      right. split; [apply sort_values_desc_sorted|].
      eexists _, _. split; [reflexivity|]. apply sort_values_desc_perm.
    + rewrite lookup_insert_ne in Hp by done. by left.
Qed.

(** C9. Every CSV report [_analyze_image] writes holds the rows the
    analysis returns, all of them and no others, in descending order of
    Confidence_Score; a report is written whenever the merged log is not
    empty; and the tables the UI builds are in the same order: the full table
    is the given rows sorted, the high-confidence table is its rows above
    0.30 in that order, and the summary table lists those row by row. *)
Theorem csv_rows_sorted_by_descending_confidence (self : detector)
    (image_path csv_dir visuals_dir : string) (w : world) :
  let run := _analyze_image self image_path csv_dir visuals_dir w in
  (forall p rows,
     fs run.2 !! p = Some (CsvFile rows) ->
     fs w !! p = Some (CsvFile rows) \/
     (sorted_desc rows /\
      exists annotated_img csv_data,
        run.1 = Return (Some (annotated_img, csv_data)) /\
        Permutation rows csv_data)) /\
  (forall image,
     fs w !! image_path = Some (ImageFile image) ->
     writable (fs w) (report_path csv_dir (base_name_of image_path)) = true ->
     merged_log self image <> [] ->
     exists annotated_img csv_data rows,
       run.1 = Return (Some (annotated_img, csv_data)) /\
       length csv_data = length (merged_log self image) /\
       fs run.2 !! report_path csv_dir (base_name_of image_path)
       = Some (CsvFile rows) /\
       sorted_desc rows /\
       Permutation rows csv_data) /\
  (forall csv_data s,
     evidence_summary csv_data = Some s ->
     sorted_desc (df s) /\
     Permutation (df s) csv_data /\
     sorted_desc (high_conf_df s) /\
     high_conf_df s
     = List.filter (fun row => Py.gt (Confidence_Score row) float_0_30) (df s) /\
     display_df s
     = map (fun row => (Evidence_Type row, Confidence_Text row,
                        Model_Source row, Visualized row)) (high_conf_df s)).
Proof.
  cbv zeta. split; [|split].
  - intros p rows. apply analyze_new_csv_holds_the_rows.
  - intros image Hread Hwritable Hlog.
    rewrite (analyze_writable self image_path csv_dir visuals_dir w image)
      by done.
    eexists _, _, _. split; [reflexivity|].
    split; [apply length_rows_from|]. simpl.
    rewrite imwrite_fs_other by apply report_is_not_analysis.
    destruct (rows_from _ _ _ _ _ _) eqn:E.
    + apply (f_equal length) in E. rewrite length_rows_from in E.
      by destruct (merged_log self image).
    + rewrite <- E, lookup_insert_eq. split; [reflexivity|].
      split; [apply sort_values_desc_sorted|apply sort_values_desc_perm].
  - intros csv_data s Hs.
    assert (Hdisplay : display_df s
              = map (fun row => (Evidence_Type row, Confidence_Text row,
                                 Model_Source row, Visualized row))
                  (high_conf_df s)).
    { unfold evidence_summary in Hs. destruct csv_data; [done|].
      by injection Hs as <-. }
    apply summary_of_rows in Hs as [Hdf Hhigh].
    rewrite Hhigh at 1. rewrite Hdf at 1 2 3.
    split; [apply sort_values_desc_sorted|].
    split; [apply sort_values_desc_perm|].
    split; [apply sorted_filter, sort_values_desc_sorted|].
    split; [exact Hhigh|exact Hdisplay].
Qed.

(** C10. When [cv2.imread] returns [None] for [image_path],
    [_analyze_image] returns [None]: it raises nothing, runs neither model
    and leaves every file as it was. *)
Theorem unreadable_image_returns_none (self : detector)
    (image_path csv_dir visuals_dir : string) (w : world) :
  cv2_imread image_path w = (Return None, w) ->
  exists w',
    _analyze_image self image_path csv_dir visuals_dir w = (Return None, w') /\
    fs w' = fs w /\
    calls w' = (calls w ++ [AnalyzeImage image_path])%list.
Proof.
  intros Hread. eexists. split.
  - apply analyze_unreadable. by rewrite Hread.
  - done.
Qed.

(** C5, as the code has it. For a readable image whose two output paths
    can be written, [_analyze_image] writes the annotated image to
    [visuals_dir]; it writes the CSV report to [csv_dir], with one row per
    merged detection, exactly when there is at least one merged detection,
    and leaves the report path untouched when there is none. *)
Theorem annotated_image_always_csv_when_detections (self : detector)
    (image_path csv_dir visuals_dir : string) (w : world) (image : image) :
  let report := report_path csv_dir (base_name_of image_path) in
  let analysis := analysis_path visuals_dir (base_name_of image_path) in
  fs w !! image_path = Some (ImageFile image) ->
  writable (fs w) report = true ->
  writable (fs w) analysis = true ->
  exists annotated_img csv_data w',
    _analyze_image self image_path csv_dir visuals_dir w
    = (Return (Some (annotated_img, csv_data)), w') /\
    fs w' !! analysis = Some (ImageFile annotated_img) /\
    length csv_data = length (merged_log self image) /\
    (merged_log self image <> [] ->
     exists rows,
       fs w' !! report = Some (CsvFile rows) /\ Permutation rows csv_data) /\
    (merged_log self image = [] -> fs w' !! report = fs w !! report).
Proof.
  intros report analysis Hread Hreport Hanalysis.
  eexists _, _, _. split; [by apply analyze_writable|].
  assert (Hne : report <> analysis) by apply report_is_not_analysis.
  split; [|split; [apply length_rows_from|split]].
  - simpl. apply imwrite_fs_written.
    destruct (rows_from _ _ _ _ _ _); [done|].
    by apply writable_after_report.
  - intros Hlog. eexists. simpl.
    rewrite imwrite_fs_other by done.
    destruct (rows_from _ _ _ _ _ _) eqn:E.
    + apply (f_equal length) in E. rewrite length_rows_from in E.
      by destruct (merged_log self image).
    + rewrite <- E. fold report. rewrite lookup_insert_eq.
      split; [reflexivity|]. apply sort_values_desc_perm.
  - intros Hlog. simpl. rewrite imwrite_fs_other by done.
    by rewrite Hlog.
Qed.

(** The directory the caller names plays no part in [process_directory]. *)
Lemma process_directory_ignores_input_dir (self : detector)
    (input_dir input_dir' output_root : string) :
  process_directory self input_dir output_root
  = process_directory self input_dir' output_root.
Proof. reflexivity. Qed.

(** *** [process_directory] *)

Lemma rpartition_none_append (c : ascii) (s t : string) :
  Py.rpartition c s = None ->
  Py.rpartition c t = None ->
  Py.rpartition c (s +:+ t) = None.
Proof.
  intros Hs Ht. induction s as [|a s IH]; [exact Ht|].
  change (String a s +:+ t) with (String a (s +:+ t)).
  simpl in *. destruct (Py.rpartition c s) as [[? ?]|]; [done|].
  rewrite IH by done. by destruct (Ascii.eqb a c).
Qed.

Lemma rpartition_append (c : ascii) (s t : string) (a b : string) :
  Py.rpartition c s = Some (a, b) ->
  Py.rpartition c t = None ->
  Py.rpartition c (s +:+ t) = Some (a, b +:+ t).
Proof.
  intros Hs Ht. revert a b Hs.
  induction s as [|x s IH]; intros a b Hs; [done|].
  change (String x s +:+ t) with (String x (s +:+ t)).
  simpl in *. destruct (Py.rpartition c s) as [[a' b']|] eqn:E.
  - injection Hs as <- <-. by rewrite (IH a' b').
  - rewrite rpartition_none_append by done.
    destruct (Ascii.eqb x c); [|done]. by injection Hs as <- <-.
Qed.

Lemma rpartition_endswith (c : ascii) (s : string) :
  Py.endswith_char c s = true ->
  exists a, Py.rpartition c s = Some (a, "").
Proof.
  induction s as [|x s IH]; [done|]. simpl.
  destruct s as [|y s].
  - intros ->. by eexists.
  - intros Hs. destruct (IH Hs) as [a ->]. by eexists.
Qed.

Lemma split_join_input (output_root : string) :
  (Posixpath.split (Posixpath.join output_root "input")).2 = "input".
Proof.
  assert (Hin : forall s, s = "" \/ Py.endswith_char Posixpath.sep s = true ->
                          (Posixpath.split (s +:+ "input")).2 = "input").
  { intros s [->|Hs]; [reflexivity|].
    destruct (rpartition_endswith _ _ Hs) as [a Ha].
    unfold Posixpath.split.
    by rewrite (rpartition_append _ _ "input" _ _ Ha). }
  unfold Posixpath.join. simpl.
  destruct (String.eqb output_root "") eqn:E; simpl.
  - apply Hin. left. by apply String.eqb_eq.
  - destruct (Py.endswith_char Posixpath.sep output_root) eqn:E'.
    + apply Hin. by right.
    + replace (output_root +:+ "/" +:+ "input")
        with ((output_root +:+ "/") +:+ "input").
      * apply Hin. right. by rewrite endswith_char_append.
      * apply append_assoc.
Qed.

Lemma mkdir_exist_ok_run (name : string) (w : world) :
  let r := mkdir_exist_ok name w in
  clock r.2 = clock w /\ calls r.2 = calls w /\
  (r.1 = Return tt -> isdir_in (fs r.2) name = true).
Proof.
  unfold mkdir_exist_ok, os_mkdir. run_io.
  destruct (exists_in (fs w) name); simpl.
  - destruct (isdir_in (fs w) name) eqn:E; simpl; auto.
    repeat split; discriminate.
  - destruct (parent_isdir (fs w) name); simpl.
    + repeat split. intros _. unfold isdir_in.
      rewrite lookup_insert_eq. apply orb_true_r.
    + destruct (isdir_in (fs w) name) eqn:E; simpl; auto.
      repeat split; discriminate.
Qed.

Lemma makedirs_from_run (fuel : nat) (name : string) (w : world) :
  let r := makedirs_from fuel name w in
  clock r.2 = clock w /\ calls r.2 = calls w /\
  (r.1 = Return tt ->
   (Posixpath.split name).2 <> "" -> (Posixpath.split name).2 <> "." ->
   isdir_in (fs r.2) name = true).
Proof.
  revert name w. induction fuel as [|fuel IH]; intros name w.
  - cbn [makedirs_from].
    destruct (Posixpath.split name) as [head tail]. cbn [snd].
    destruct (if String.eqb tail "" then _ else _) as [head' tail'].
    run_io.
    destruct (_ && _ && _); [simpl; repeat split; discriminate|].
    pose proof (mkdir_exist_ok_run name w) as Hm. cbv zeta in Hm.
    intuition.
  - cbn [makedirs_from].
    destruct (Posixpath.split name) as [head tail]. cbn [snd].
    destruct (String.eqb tail "") eqn:Etail.
    + destruct (Posixpath.split head) as [head' tail'].
      apply String.eqb_eq in Etail. run_io.
      destruct (_ && _ && _).
      * pose proof (IH head' w) as IHh. cbv zeta in IHh.
        destruct (makedirs_from fuel head' w) as [[[]|e] w1]; simpl in *.
        -- destruct (String.eqb tail' "."); simpl; [intuition|].
           pose proof (mkdir_exist_ok_run name w1) as Hm. cbv zeta in Hm.
           intuition congruence.
        -- intuition discriminate.
      * pose proof (mkdir_exist_ok_run name w) as Hm. cbv zeta in Hm.
        intuition.
    + run_io.
      destruct (_ && _ && _).
      * pose proof (IH head w) as IHh. cbv zeta in IHh.
        destruct (makedirs_from fuel head w) as [[[]|e] w1]; simpl in *.
        -- destruct (String.eqb tail ".") eqn:Edot; simpl.
           ++ apply String.eqb_eq in Edot. intuition.
           ++ pose proof (mkdir_exist_ok_run name w1) as Hm. cbv zeta in Hm.
              intuition congruence.
        -- intuition discriminate.
      * pose proof (mkdir_exist_ok_run name w) as Hm. cbv zeta in Hm.
        intuition.
Qed.

Lemma all_char_endswith (c c' : ascii) (s : string) :
  Py.all_char c s = true -> Py.endswith_char c' s = true -> c = c'.
Proof.
  induction s as [|a s IH]; [done|]. simpl.
  intros Hall%andb_true_iff. destruct Hall as [Ha Hs].
  apply Ascii.eqb_eq in Ha as ->.
  destruct s; [by intros ?%Ascii.eqb_eq|]. by apply IH.
Qed.

Lemma join_input_is_no_root (output_root : string) :
  is_root (Posixpath.join output_root "input") = false.
Proof.
  unfold is_root. apply andb_false_iff. right.
  destruct (Py.all_char _ _) eqn:E; [|done].
  assert (Ht : Py.endswith_char "t" (Posixpath.join output_root "input") = true)
    by by rewrite endswith_char_join.
  by pose proof (all_char_endswith _ _ _ E Ht).
Qed.

(** Whatever directory the caller names, a [process_directory] that
    completes has passed exactly one path to [_analyze_image]: the directory
    [output_root/input] it has just made sure exists, which is no image, so
    that neither model has run. *)
Lemma process_directory_run (self : detector)
    (input_dir output_root : string) (w w' : world) :
  has_magic (Posixpath.join output_root "input") = false ->
  process_directory self input_dir output_root w = (Return tt, w') ->
  isdir_in (fs w') (Posixpath.join output_root "input") = true /\
  calls w'
  = (calls w ++ [AnalyzeImage (Posixpath.join output_root "input")])%list.
Proof.
  intros Hmagic. unfold process_directory, os_makedirs.
  set (csv_dir := Posixpath.join output_root "evidence_logs").
  set (visuals_dir := Posixpath.join output_root "visuals").
  set (d := Posixpath.join output_root "input") in *.
  unfold bind at 1.
  pose proof (makedirs_from_run (String.length csv_dir) csv_dir w) as H1.
  destruct (makedirs_from _ csv_dir w) as [[[]|e1] w1]; [|done].
  unfold bind at 1.
  pose proof (makedirs_from_run (String.length visuals_dir) visuals_dir w1) as H2.
  destruct (makedirs_from _ visuals_dir w1) as [[[]|e2] w2]; [|done].
  unfold bind at 1.
  pose proof (makedirs_from_run (String.length d) d w2) as H3.
  destruct (makedirs_from _ d w2) as [[[]|e3] w3]; [|done].
  cbv zeta in H1, H2, H3. simpl in H1, H2, H3.
  destruct H1 as (_ & Hc1 & _), H2 as (_ & Hc2 & _), H3 as (_ & Hc3 & Hdir).
  assert (Hd : isdir_in (fs w3) d = true).
  { apply Hdir; [done|..]; subst d; by rewrite split_join_input. }
  clear Hdir.
  assert (Hnode : fs w3 !! d = Some Dir).
  { unfold isdir_in in Hd. subst d. rewrite join_input_is_no_root in Hd.
    simpl in Hd. by destruct (fs w3 !! _) as [[]|]. }
  unfold glob_glob. run_io. rewrite Hmagic.
  pose proof (split_join_input output_root) as Htail. fold d in Htail.
  destruct (Posixpath.split d) as [dn bn]. simpl in Htail. subst bn.
  cbn [String.eqb Ascii.eqb Bool.eqb negb]. cbv beta iota.
  unfold exists_in. rewrite Hnode.
  rewrite bool_decide_eq_true_2 by eauto. rewrite orb_true_r.
  cbn [analyze_each]. run_io.
  rewrite analyze_unreadable
    by (unfold cv2_imread; run_io; by rewrite Hnode).
  cbv beta iota.
  intros [= <-]. simpl. split.
  - unfold isdir_in. rewrite Hnode. apply orb_true_r.
  - rewrite Hc3, Hc2, Hc1. reflexivity.
Qed.

(** *** More on paths *)

Lemma append_nil_r (s : string) : s +:+ "" = s.
Proof.
  induction s as [|x s IH]; [done|].
  change (String x (s +:+ "") = String x s). by rewrite IH.
Qed.

Lemma rpartition_tail_none (c : ascii) (s a t : string) :
  Py.rpartition c s = Some (a, t) -> Py.rpartition c t = None.
Proof.
  revert a t. induction s as [|x s IH]; intros a t; [done|]. simpl.
  destruct (Py.rpartition c s) as [[a' t']|] eqn:E.
  - intros [= <- <-]. by eapply IH.
  - destruct (Ascii.eqb x c); [|done]. by intros [= <- <-].
Qed.

Lemma rpartition_some_eq (c : ascii) (s a t : string) :
  Py.rpartition c s = Some (a, t) -> s = a +:+ String c t.
Proof.
  revert a t. induction s as [|x s IH]; intros a t; [done|]. simpl.
  destruct (Py.rpartition c s) as [[a' t']|] eqn:E.
  - intros [= <- <-]. by rewrite (IH a' t').
  - destruct (Ascii.eqb x c) eqn:Ex; [|done].
    apply Ascii.eqb_eq in Ex as ->. by intros [= <- <-].
Qed.

Lemma rpartition_none_left (c : ascii) (s t : string) :
  Py.rpartition c (s +:+ t) = None -> Py.rpartition c s = None.
Proof.
  induction s as [|x s IH]; [done|].
  change (String x s +:+ t) with (String x (s +:+ t)). simpl.
  destruct (Py.rpartition c (s +:+ t)) as [[? ?]|]; [done|].
  rewrite IH by done. by destruct (Ascii.eqb x c).
Qed.

Lemma rpartition_at_last (c : ascii) (s t : string) :
  Py.rpartition c t = None ->
  Py.rpartition c (s +:+ String c t) = Some (s, t).
Proof.
  intros Ht. induction s as [|x s IH].
  - change ("" +:+ String c t) with (String c t). simpl.
    by rewrite Ht, Ascii.eqb_refl.
  - change (String x s +:+ String c t) with (String x (s +:+ String c t)).
    simpl. by rewrite IH.
Qed.

Lemma split_append_tail (s n : string) :
  s = "" \/ Py.endswith_char Posixpath.sep s = true ->
  Py.rpartition Posixpath.sep n = None ->
  (Posixpath.split (s +:+ n)).2 = n.
Proof.
  intros [->|Hs] Hn; unfold Posixpath.split.
  - change ("" +:+ n) with n. by rewrite Hn.
  - destruct (rpartition_endswith _ _ Hs) as [a Ha].
    by rewrite (rpartition_append _ _ n _ _ Ha Hn).
Qed.

Lemma basename_join (a n : string) :
  Py.rpartition Posixpath.sep n = None ->
  Posixpath.basename (Posixpath.join a n) = n.
Proof.
  intros Hn. unfold Posixpath.basename, Posixpath.join.
  assert (Hstart : Py.startswith "/" n = false).
  { destruct n as [|x n]; [done|]. cbn [Py.startswith].
    destruct (Ascii.eqb "/" x) eqn:Ex; [|done].
    apply Ascii.eqb_eq in Ex as <-. simpl in Hn.
    by destruct (Py.rpartition Posixpath.sep n) as [[? ?]|]. }
  rewrite Hstart.
  destruct (String.eqb a "") eqn:E; simpl.
  - apply split_append_tail; [|done]. left. by apply String.eqb_eq.
  - destruct (Py.endswith_char Posixpath.sep a) eqn:E'.
    + apply split_append_tail; [by right|done].
    + rewrite <- append_assoc. apply split_append_tail; [|done].
      right. by rewrite endswith_char_append.
Qed.

Lemma basename_has_no_sep (p : string) :
  Py.rpartition Posixpath.sep (Posixpath.basename p) = None.
Proof.
  unfold Posixpath.basename, Posixpath.split.
  destruct (Py.rpartition Posixpath.sep p) as [[a t]|] eqn:E; simpl.
  - by eapply rpartition_tail_none.
  - done.
Qed.

Lemma splitext_root (b : string) :
  Py.rpartition Posixpath.sep b = None ->
  (Posixpath.splitext b).1 = b \/
  exists ext, b = (Posixpath.splitext b).1 +:+ String "." ext.
Proof.
  intros Hb. unfold Posixpath.splitext. rewrite Hb.
  destruct (Py.rpartition "." b) as [[root ext]|] eqn:E; [|by left].
  destruct (Py.all_char "." root); [by left|].
  right. exists ext. simpl. by apply rpartition_some_eq.
Qed.

Lemma base_name_has_no_sep (image_path : string) :
  Py.rpartition Posixpath.sep (base_name_of image_path) = None.
Proof.
  unfold base_name_of.
  pose proof (basename_has_no_sep image_path) as Hb.
  destruct (splitext_root _ Hb) as [->|[ext Hext]]; [done|].
  rewrite Hext in Hb. by apply rpartition_none_left in Hb.
Qed.

Lemma image_is_not_an_output (image_path dir suffix : string) :
  Py.rpartition Posixpath.sep suffix = None ->
  (forall ext, String "." ext <> suffix) ->
  suffix <> "" ->
  image_path <> Posixpath.join dir (base_name_of image_path +:+ suffix).
Proof.
  intros Hsep Hdot Hne Heq.
  pose proof (base_name_has_no_sep image_path) as Hbase.
  assert (Hb : Posixpath.basename image_path
               = base_name_of image_path +:+ suffix).
  { rewrite Heq at 1. apply basename_join.
    by apply rpartition_none_append. }
  unfold base_name_of in Hb.
  destruct (splitext_root _ (basename_has_no_sep image_path))
    as [Hroot|[ext Hext]].
  - rewrite Hroot in Hb. rewrite <- (append_nil_r (Posixpath.basename _)) in Hb at 1.
    apply String.app_inj in Hb. congruence.
  - rewrite Hext in Hb at 1. apply String.app_inj in Hb.
    by apply (Hdot ext).
Qed.

(** *** What an analysis leaves alone *)

Lemma imread_none_of_node (image_path : string) (w : world) :
  (forall image, fs w !! image_path <> Some (ImageFile image)) ->
  (cv2_imread image_path w).1 = Return None.
Proof.
  intros Hno. unfold cv2_imread. run_io. simpl.
  destruct (fs w !! image_path) as [[|image| |]|] eqn:E; try done.
  by destruct (Hno image).
Qed.

Lemma analyze_frame (self : detector)
    (image_path csv_dir visuals_dir : string) (w : world) (p : string) :
  p <> report_path csv_dir (base_name_of image_path) ->
  p <> analysis_path visuals_dir (base_name_of image_path) ->
  fs (_analyze_image self image_path csv_dir visuals_dir w).2 !! p
  = fs w !! p.
Proof.
  intros Hreport Hanalysis.
  destruct (fs w !! image_path) as [[|image| |]|] eqn:Hread;
    try (rewrite analyze_unreadable;
         [done | unfold cv2_imread; run_io; by rewrite Hread]).
  pose proof (analyze_readable self image_path csv_dir visuals_dir w image Hread)
    as Hrun. cbv zeta in Hrun. rewrite Hrun. clear Hrun.
  destruct (rows_from _ _ _ _ _ _) as [|row rest].
  - simpl. by rewrite imwrite_fs_other.
  - destruct (writable (fs w) _); simpl; [|done].
    rewrite imwrite_fs_other by done. by rewrite lookup_insert_ne.
Qed.

(** X1. Whatever the outcome, [_analyze_image] changes no file other than
    the CSV report and the annotated image of the analysed path. *)
Theorem analysis_touches_only_its_two_outputs (self : detector)
    (image_path csv_dir visuals_dir : string) (w : world) (p : string) :
  p <> report_path csv_dir (base_name_of image_path) ->
  p <> analysis_path visuals_dir (base_name_of image_path) ->
  fs (_analyze_image self image_path csv_dir visuals_dir w).2 !! p
  = fs w !! p.
Proof. apply analyze_frame. Qed.

(** X2. [_analyze_image] never overwrites the image it analyses: whatever
    the directories and the outcome, the file at [image_path] is afterwards
    what it was before. *)
Theorem analysis_keeps_the_input_image (self : detector)
    (image_path csv_dir visuals_dir : string) (w : world) :
  fs (_analyze_image self image_path csv_dir visuals_dir w).2 !! image_path
  = fs w !! image_path.
Proof.
  apply analyze_frame.
  - apply image_is_not_an_output; [done| |done].
    intros ext. discriminate.
  - apply image_is_not_an_output; [done| |done].
    intros ext. discriminate.
Qed.

(** X3. When the image is readable and at least one detection is logged but
    the report cannot be written (the CSV directory is missing, say),
    [_analyze_image] raises [OSError] after both passes have run, and writes
    nothing: no report and no annotated image. *)
Theorem unwritable_report_raises_and_writes_nothing (self : detector)
    (image_path csv_dir visuals_dir : string) (w : world) (image : image) :
  fs w !! image_path = Some (ImageFile image) ->
  merged_log self image <> [] ->
  writable (fs w) (report_path csv_dir (base_name_of image_path)) = false ->
  exists w',
    _analyze_image self image_path csv_dir visuals_dir w = (Raise OSError, w') /\
    fs w' = fs w /\
    calls w' = (calls w ++ AnalyzeImage image_path :: predictions self image)%list.
Proof.
  intros Hread Hlog Hreport.
  pose proof (analyze_readable self image_path csv_dir visuals_dir w image Hread)
    as Hrun. cbv zeta in Hrun. rewrite Hreport in Hrun.
  destruct (rows_from _ _ _ _ _ _) eqn:E.
  - apply (f_equal length) in E. rewrite length_rows_from in E.
    by destruct (merged_log self image).
  - eexists. split; [exact Hrun|]. done.
Qed.

Lemma writable_before_report (f : gmap string node) (p q : string)
    (rows : list csv_row) :
  p <> q -> writable f q = false ->
  writable (<[p := CsvFile rows]> f) q = false.
Proof.
  unfold writable, parent_isdir, isdir_in. intros Hpq Hq.
  rewrite (lookup_insert_ne _ p q) by done.
  destruct (decide (p = Posixpath.dirname q)) as [Heq|Hne].
  - rewrite <- Heq in *. rewrite lookup_insert_eq.
    destruct (String.eqb p ""); [done|]. simpl in *.
    destruct (is_root p); [done|]. simpl. done.
  - by rewrite lookup_insert_ne.
Qed.

(** X4. When the annotated image cannot be written (the visuals directory
    is missing, say), [_analyze_image] does not fail: it still returns the
    annotated image and the rows, still writes the report when there are
    rows, and leaves the path of the annotated image as it was. *)
Theorem unwritable_visuals_is_silent (self : detector)
    (image_path csv_dir visuals_dir : string) (w : world) (image : image) :
  let report := report_path csv_dir (base_name_of image_path) in
  let analysis := analysis_path visuals_dir (base_name_of image_path) in
  fs w !! image_path = Some (ImageFile image) ->
  writable (fs w) report = true ->
  writable (fs w) analysis = false ->
  exists annotated_img csv_data w',
    _analyze_image self image_path csv_dir visuals_dir w
    = (Return (Some (annotated_img, csv_data)), w') /\
    fs w' !! analysis = fs w !! analysis /\
    (csv_data <> [] ->
     fs w' !! report = Some (CsvFile (sort_values_desc csv_data))).
Proof.
  intros report analysis Hread Hreport Hanalysis.
  assert (Hne : report <> analysis) by apply report_is_not_analysis.
  eexists _, _, _. split; [by apply analyze_writable|].
  simpl. fold report analysis.
  destruct (rows_from _ _ _ _ _ _) as [|row rest] eqn:E.
  - unfold imwrite_fs. rewrite Hanalysis. done.
  - rewrite <- E. unfold imwrite_fs.
    rewrite writable_before_report by done.
    split.
    + by rewrite lookup_insert_ne.
    + intros _. by rewrite lookup_insert_eq.
Qed.

(** *** Counting what is drawn *)

Lemma filter_perm {A : Type} (f : A -> bool) (l l' : list A) :
  Permutation l l' -> Permutation (List.filter f l) (List.filter f l').
Proof.
  induction 1 as [|x l l' Hl IH|x y l|l l' l'' H1 IH1 H2 IH2]; simpl.
  - done.
  - destruct (f x); [by constructor|done].
  - destruct (f x), (f y); try done. apply perm_swap.
  - by etrans.
Qed.

Lemma filter_yes_is_filter_confident (cutoff : Q) (l : list csv_row) :
  Forall
    (fun row =>
       Visualized row
       = (if Py.gt (Confidence_Score row) cutoff then "YES" else "NO")) l ->
  List.filter (fun row => Py.gt (Confidence_Score row) cutoff) l
  = List.filter (fun row => String.eqb (Visualized row) "YES") l.
Proof.
  intros Hl. apply List.filter_ext_in. intros row Hrow.
  rewrite Forall_forall in Hl. apply list_elem_of_In in Hrow.
  rewrite (Hl row Hrow). by destruct (Py.gt _ _).
Qed.

Lemma drawn_count (self : detector) (img_w img_h : Z) (base_name : string)
    (t : nat) (log : list log_entry) :
  length (flat_map (drawing_for self img_w img_h) log)
  = 3 * length (List.filter (fun row => String.eqb (Visualized row) "YES")
                  (rows_from self img_w img_h base_name t log)).
Proof.
  revert t. induction log as [|item rest IH]; intros t; [done|].
  cbn [flat_map rows_from List.filter]. rewrite length_app, (IH (S t)).
  unfold drawing_for, row_for, box_and_label.
  destruct (clamped img_w img_h (Box item)) as [[[x1 y1] x2] y2].
  cbn [Visualized].
  destruct (Py.gt (Conf item) (VISUAL_CUTOFF self)); simpl; lia.
Qed.

(** *** The evidence summary of the UI *)

Lemma summary_display (csv_data : list csv_row) (s : summary) :
  evidence_summary csv_data = Some s ->
  display_df s
  = map (fun row => (Evidence_Type row, Confidence_Text row,
                     Model_Source row, Visualized row)) (high_conf_df s).
Proof.
  unfold evidence_summary. destruct csv_data; [done|].
  intros [= <-]. done.
Qed.

Lemma summary_view_of_rows (rows : list csv_row) :
  Forall
    (fun row =>
       Visualized row
       = (if Py.gt (Confidence_Score row) float_0_30 then "YES" else "NO"))
    rows ->
  match summary_view_of rows with
  | NoEvidence => rows = []
  | NoHighConfidence =>
      rows <> [] /\
      List.filter (fun row => String.eqb (Visualized row) "YES") rows = []
  | FullReport s =>
      0 < total_evidence s /\
      total_evidence s
      = length (List.filter
                  (fun row => String.eqb (Visualized row) "YES") rows) /\
      length (display_df s) = total_evidence s /\
      length (evidence_badges s) = total_evidence s /\
      Forall (fun shown : display_row => shown.2 = "YES") (display_df s)
  end.
Proof.
  intros Hv. unfold summary_view_of.
  destruct (evidence_summary rows) as [s|] eqn:Hs.
  - pose proof (summary_display _ _ Hs) as Hdisplay.
    pose proof Hs as Hsome.
    apply summary_of_rows in Hs as [Hdf Hhigh].
    assert (Hsorted : Forall
              (fun row => Visualized row
                 = (if Py.gt (Confidence_Score row) float_0_30
                    then "YES" else "NO")) (df s)).
    { rewrite Hdf. eapply Permutation_Forall; [|exact Hv].
      symmetry. apply sort_values_desc_perm. }
    rewrite (filter_yes_is_filter_confident _ _ Hsorted) in Hhigh.
    assert (Hperm : Permutation (high_conf_df s)
                      (List.filter
                         (fun row => String.eqb (Visualized row) "YES") rows)).
    { rewrite Hhigh, Hdf. apply filter_perm, sort_values_desc_perm. }
    destruct (high_conf_df s) as [|row rest] eqn:E.
    + split.
      * by intros ->.
      * by apply Permutation_nil in Hperm.
    + unfold total_evidence, evidence_badges. rewrite Hdisplay, E.
      rewrite !length_map.
      split; [simpl; lia|]. split; [by apply Permutation_length|].
      split; [done|]. split; [done|].
      apply Forall_map. apply Forall_forall. intros r Hr. simpl.
      assert (Hin : In r (List.filter
                (fun row => String.eqb (Visualized row) "YES") (df s))).
      { rewrite <- Hhigh. by apply list_elem_of_In. }
      apply List.filter_In in Hin as [_ Hyes]. by apply String.eqb_eq.
  - unfold evidence_summary in Hs. by destruct rows.
Qed.

(** X6. For the rows and the annotated image of one analysis, the UI says
    "no evidence" exactly when the merged log is empty, says "no
    high-confidence evidence" only when nothing was drawn on the image, and
    otherwise shows a report whose TOTAL EVIDENCE is the number of boxes
    drawn, with one table row and one badge per box, every table row marked
    "YES". *)
Theorem summary_counts_the_drawn_boxes (standard : yolo_model)
    (custom : option yolo_model) (image_path csv_dir visuals_dir : string)
    (w : world) (image : image) :
  let self := configure standard custom in
  fs w !! image_path = Some (ImageFile image) ->
  writable (fs w) (report_path csv_dir (base_name_of image_path)) = true ->
  exists annotated_img csv_data w',
    _analyze_image self image_path csv_dir visuals_dir w
    = (Return (Some (annotated_img, csv_data)), w') /\
    match summary_view_of csv_data with
    | NoEvidence => merged_log self image = [] /\ annotated_img = image
    | NoHighConfidence => merged_log self image <> [] /\ annotated_img = image
    | FullReport s =>
        0 < total_evidence s /\
        length (overlays annotated_img)
        = length (overlays image) + 3 * total_evidence s /\
        length (display_df s) = total_evidence s /\
        length (evidence_badges s) = total_evidence s /\
        Forall (fun shown : display_row => shown.2 = "YES") (display_df s)
    end.
Proof.
  intros self Hread Hwritable.
  eexists _, _, _. split; [by apply analyze_writable|].
  pose proof (rows_visualized self (shape_w image) (shape_h image)
                (base_name_of image_path) (clock w) (merged_log self image))
    as Hv.
  change (VISUAL_CUTOFF self) with float_0_30 in Hv.
  pose proof (drawn_count self (shape_w image) (shape_h image)
                (base_name_of image_path) (clock w) (merged_log self image))
    as Hcount.
  pose proof (length_rows_from self (shape_w image) (shape_h image)
                (base_name_of image_path) (clock w) (merged_log self image))
    as Hlen.
  apply summary_view_of_rows in Hv.
  destruct (summary_view_of _) as [| |s].
  - rewrite Hv in Hlen. destruct (merged_log self image); [|done].
    split; [done|]. apply paint_nil.
  - destruct Hv as [Hrows Hnone]. rewrite Hnone in Hcount.
    apply nil_length_inv in Hcount. rewrite Hcount. split; [|apply paint_nil].
    intros Hnil. rewrite Hnil in Hrows. by apply Hrows.
  - destruct Hv as (Hpos & Htotal & Hrest). split; [done|].
    split; [|done]. simpl. rewrite length_app, Hcount, Htotal. done.
Qed.

(** X7. The badge the UI gives a label follows the colour the detector
    draws its box in: a weapon badge for the gun and knife colours, a person
    badge for the person colour, a digital badge for the phone and laptop
    colour, the general badge for the general colour.  The one exception is
    a label containing "Blood": its box is dark red whatever else the label
    says, and the UI has no badge of that kind. *)
Theorem badge_follows_box_colour (standard : yolo_model)
    (custom : option yolo_model) (label : string) :
  let self := configure standard custom in
  let c := pick_color self label in
  if Py.contains "Blood" label then c = (0, 0, 139)%Z
  else
    (badge_class label = "badge-weapon" <->
     c = (0, 0, 255)%Z \/ c = (0, 69, 255)%Z) /\
    (badge_class label = "badge-person" <-> c = (255, 255, 0)%Z) /\
    (badge_class label = "badge-digital" <-> c = (255, 0, 0)%Z) /\
    (badge_class label = "badge-general" <-> c = (0, 255, 255)%Z).
Proof.
  cbv zeta. unfold pick_color, badge_class.
  destruct (Py.contains "Blood" label); [by vm_compute|].
  destruct (Py.contains "Gun" label), (Py.contains "Knife" label),
    (Py.contains "Person" label), (Py.contains "Phone" label),
    (Py.contains "Laptop" label);
    vm_compute; intuition congruence.
Qed.

(** *** [__init__] and the UI's analysis *)

Lemma init_run (standard_weights custom_weights : string) (w : world) :
  __init__ standard_weights custom_weights w
  = (Return (configure (YOLO standard_weights)
               (if exists_in (fs w) custom_weights
                then Some (YOLO custom_weights) else None)), w).
Proof. reflexivity. Qed.

(** X8. [__init__] never fails over missing custom weights: it loads the
    custom model exactly when the weights file exists.  An analysis with the
    detector it returns runs the standard model once and the custom model
    once if it was loaded, in that order, on the decoded image; without the
    custom weights every row comes from "Standard_Model". *)
Theorem custom_detection_needs_custom_weights
    (standard_weights custom_weights image_path csv_dir visuals_dir : string)
    (w : world) (image : image) :
  fs w !! image_path = Some (ImageFile image) ->
  writable (fs w) (report_path csv_dir (base_name_of image_path)) = true ->
  exists self annotated_img csv_data w',
    __init__ standard_weights custom_weights w = (Return self, w) /\
    _analyze_image self image_path csv_dir visuals_dir w
    = (Return (Some (annotated_img, csv_data)), w') /\
    calls w'
    = (calls w ++
       AnalyzeImage image_path :: Predict StandardModel image ::
       (if exists_in (fs w) custom_weights
        then [Predict CustomModel image] else []))%list /\
    (exists_in (fs w) custom_weights = false ->
     Forall (fun row => Model_Source row = "Standard_Model") csv_data).
Proof.
  intros Hread Hwritable.
  eexists _, _, _, _. split; [apply init_run|].
  split; [by apply analyze_writable|].
  split.
  - simpl. unfold predictions. simpl.
    by destruct (exists_in (fs w) custom_weights).
  - intros Hmissing. rewrite Hmissing.
    eapply Forall2_Forall_r; [apply rows_from_fields|].
    unfold merged_log. simpl. rewrite app_nil_r.
    eapply Forall_impl; [apply labelled_entries|].
    intros item [Hsrc _] row (Hrow & _). by rewrite Hrow.
Qed.

(** X9. On an upload that [cv2.imread] cannot decode, the ANALYZE EVIDENCE
    button of the UI always fails, and never after a model has run or a file
    has changed: with [cv2.error] from the conversion to BGR, before the
    detector is built, when the upload's array is not one [cv2.cvtColor]
    takes (a one-channel picture, say); otherwise with [TypeError], from
    unpacking the [None] that [_analyze_image] returns. *)
Theorem analyze_evidence_raises_on_undecodable_upload (img_array : ndarray)
    (img_path : string) (w : world) :
  cv2_imread img_path w = (Return None, w) ->
  exists w',
    analyze_evidence img_array img_path w
    = (Raise (if cvtColor_accepts img_array then TypeError else Cv2Error),
       w') /\
    fs w' = fs w /\
    calls w'
    = (calls w ++
       (if cvtColor_accepts img_array then [AnalyzeImage img_path] else []))%list.
Proof.
  intros Hread. unfold analyze_evidence, cv2_cvtColor_RGB2BGR.
  unfold bind at 1.
  destruct (cvtColor_accepts img_array).
  - unfold ret at 1. cbv beta iota.
    unfold bind at 1. rewrite init_run. cbv beta iota.
    unfold bind at 1. rewrite analyze_unreadable by by rewrite Hread.
    cbv beta iota. eexists. split; [reflexivity|]. done.
  - unfold raise at 1. cbv beta iota.
    eexists. split; [reflexivity|]. split; [done|]. by rewrite app_nil_r.
Qed.

(** *** More on the label *)

(** X10. Flipping and shifting move the label without reshaping it: the
    background is always text_w + 10 wide and text_h + 10 high, and the text
    always starts 5 right of its left edge and 5 above its bottom edge. *)
Theorem label_moves_as_one_piece (x1 y1 text_w text_h img_w : Z) :
  let g := place_label x1 y1 text_w text_h img_w in
  (bg_x2 g - bg_x1 g = text_w + 10)%Z /\
  (bg_y2 g - bg_y1 g = text_h + 10)%Z /\
  (text_x g = bg_x1 g + 5)%Z /\
  (text_y g = bg_y2 g - 5)%Z.
Proof.
  cbv zeta. unfold place_label.
  destruct (_ <? 0)%Z, (_ >? img_w)%Z; simpl; lia.
Qed.

(** X11. For every detection that is drawn, the label background never
    starts above the top image edge, and it never starts left of the left
    image edge as long as the label is no wider than the image
    (text_w + 10 <= img_w). *)
Theorem label_background_stays_below_top_and_right_of_left
    (self : detector) (img_w img_h : Z) (base_name : string)
    (item : log_entry) (annotated_img : image) (csv_data : list csv_row)
    (w : world) :
  (VISUAL_CUTOFF self < Conf item)%Q ->
  exists (lbl : string) (g : label_geometry)
         (box_rect label_text : draw_op) csv_data' w',
    lbl = Label item +:+ " " +:+ format_percent 0 (Conf item) /\
    visualize_item self img_w img_h base_name item annotated_img csv_data w
    = (Return
         (paint annotated_img
            [ box_rect;
              Rectangle (bg_x1 g, bg_y1 g) (bg_x2 g, bg_y2 g)
                (colors self !!! "bg_label") (-1);
              label_text ],
          csv_data'), w') /\
    (0 <= bg_y1 g)%Z /\
    (((getTextSize lbl).1 + 10 <= img_w)%Z -> (0 <= bg_x1 g)%Z).
Proof.
  intros Hconf.
  destruct (drawn_item_run self img_w img_h base_name item annotated_img
              csv_data w Hconf) as (csv_data' & w' & Hrun).
  unfold box_and_label in Hrun. unfold clamped in Hrun.
  destruct (Box item) as [[[bx1 by1] bx2] by2].
  eexists _, _, _, _, csv_data', w'.
  split; [reflexivity|]. split; [exact Hrun|].
  unfold place_label. cbv zeta.
  destruct (Z.ltb_spec (Z.max 0 (Py.int by1) - (getTextSize
              (Label item +:+ " " +:+ format_percent 0 (Conf item))).2 - 10) 0);
    destruct (Z.gtb_spec (Z.max 0 (Py.int bx1) + (getTextSize
                (Label item +:+ " " +:+ format_percent 0 (Conf item))).1 + 10)
                img_w);
    simpl; split; intros; lia.
Qed.

(** *** Clamped boxes *)

(** X12. The row of a detection whose truncated box overlaps the image
    (x1 <= x2, x1 <= img_w, 0 <= x2, and likewise for y) has ordered
    coordinates inside the image; a box that lies wholly right of the image
    or wholly left of it is not dropped but logged with x2 < x1. *)
Theorem overlapping_box_is_clamped_in_order (self : detector)
    (img_w img_h : Z) (base_name : string) (item : log_entry)
    (annotated_img : image) (csv_data : list csv_row) (w : world)
    (bx1 by1 bx2 by2 : Q) :
  Box item = (bx1, by1, bx2, by2) ->
  (0 <= img_w)%Z -> (0 <= img_h)%Z ->
  exists annotated_img' row w' (x1 y1 x2 y2 : Z),
    visualize_item self img_w img_h base_name item annotated_img csv_data w
    = (Return (annotated_img', (csv_data ++ [row])%list), w') /\
    Coords row = [x1; y1; x2; y2] /\
    ((Py.int bx1 <= Py.int bx2)%Z -> (Py.int bx1 <= img_w)%Z ->
     (0 <= Py.int bx2)%Z -> (0 <= x1 <= x2)%Z /\ (x2 <= img_w)%Z) /\
    ((Py.int by1 <= Py.int by2)%Z -> (Py.int by1 <= img_h)%Z ->
     (0 <= Py.int by2)%Z -> (0 <= y1 <= y2)%Z /\ (y2 <= img_h)%Z) /\
    ((img_w < Py.int bx1)%Z \/ (Py.int bx2 < 0)%Z -> (x2 < x1)%Z).
Proof.
  intros Hbox Hw Hh.
  eexists _, _, _, _, _, _, _. split; [apply visualize_item_run|].
  unfold row_for, clamped. rewrite Hbox. cbn [Coords].
  split; [reflexivity|]. repeat split; lia.
Qed.

(** *** The names of the outputs *)

Lemma base_name_of_stem (dir stem ext : string) :
  Py.rpartition Posixpath.sep stem = None ->
  Py.rpartition Posixpath.sep ext = None ->
  Py.rpartition "." ext = None ->
  Py.all_char "." stem = false ->
  base_name_of (Posixpath.join dir (stem +:+ "." +:+ ext)) = stem.
Proof.
  intros Hstem Hext Hdot Hdots.
  assert (Hname : Py.rpartition Posixpath.sep (stem +:+ "." +:+ ext) = None).
  { apply rpartition_none_append; [done|].
    by apply (rpartition_none_append _ "." ext). }
  unfold base_name_of. rewrite basename_join by done.
  unfold Posixpath.splitext. rewrite Hname.
  change (stem +:+ "." +:+ ext) with (stem +:+ String "." ext).
  rewrite rpartition_at_last by done. by rewrite Hdots.
Qed.

Lemma rows_image (self : detector) (img_w img_h : Z) (base_name : string)
    (t : nat) (log : list log_entry) :
  Forall (fun row => Image row = base_name)
    (rows_from self img_w img_h base_name t log).
Proof.
  revert t. induction log as [|item rest IH]; intros t; simpl.
  - constructor.
  - constructor; [|apply IH].
    unfold row_for. by destruct (clamped _ _ _) as [[[? ?] ?] ?].
Qed.

(** X13. The outputs are named after the stem of the image's file name
    alone: for an image [dir/stem.ext], every row carries [stem] in its Image
    column, the report is [csv_dir/stem_FULL_REPORT.csv] and the annotated
    image [visuals_dir/stem_ANALYSIS.jpg], whatever [dir] and [ext] are. *)
Theorem outputs_are_named_after_the_stem (self : detector)
    (dir stem ext csv_dir visuals_dir : string) (w : world) (image : image) :
  let image_path := Posixpath.join dir (stem +:+ "." +:+ ext) in
  let report := Posixpath.join csv_dir (stem +:+ "_FULL_REPORT.csv") in
  let analysis := Posixpath.join visuals_dir (stem +:+ "_ANALYSIS.jpg") in
  Py.rpartition Posixpath.sep stem = None ->
  Py.rpartition Posixpath.sep ext = None ->
  Py.rpartition "." ext = None ->
  Py.all_char "." stem = false ->
  fs w !! image_path = Some (ImageFile image) ->
  writable (fs w) report = true ->
  writable (fs w) analysis = true ->
  exists annotated_img csv_data w',
    _analyze_image self image_path csv_dir visuals_dir w
    = (Return (Some (annotated_img, csv_data)), w') /\
    Forall (fun row => Image row = stem) csv_data /\
    fs w' !! analysis = Some (ImageFile annotated_img) /\
    (csv_data <> [] ->
     fs w' !! report = Some (CsvFile (sort_values_desc csv_data))).
Proof.
  intros image_path report analysis Hstem Hext Hdot Hdots Hread Hreport
    Hanalysis.
  pose proof (base_name_of_stem dir stem ext Hstem Hext Hdot Hdots) as Hbase.
  fold image_path in Hbase.
  assert (Hne : report <> analysis) by apply report_is_not_analysis.
  eexists _, _, _. split.
  { apply analyze_writable; [done|]. rewrite Hbase. exact Hreport. }
  rewrite Hbase. split; [apply rows_image|]. cbn [fs set_fs].
  change (report_path csv_dir stem) with report.
  change (analysis_path visuals_dir stem) with analysis.
  split.
  - apply imwrite_fs_written.
    destruct (rows_from _ _ _ _ _ _); [done|].
    by apply writable_after_report.
  - intros Hrows. rewrite imwrite_fs_other by done.
    destruct (rows_from _ _ _ _ _ _); [done|].
    by rewrite lookup_insert_eq.
Qed.

(** *** What [process_directory] makes *)

Lemma grown_refl (f : gmap string node) : grown_by_directories f f.
Proof. intros p. by left. Qed.

Lemma grown_trans (f g h : gmap string node) :
  grown_by_directories f g -> grown_by_directories g h ->
  grown_by_directories f h.
Proof.
  intros Hfg Hgh p. destruct (Hfg p) as [Heq|[Hnone Hdir]],
    (Hgh p) as [Heq'|[Hnone' Hdir']].
  - left. congruence.
  - right. split; congruence.
  - right. split; congruence.
  - congruence.
Qed.

Lemma isdir_grown (f f' : gmap string node) (d : string) :
  grown_by_directories f f' -> isdir_in f d = true -> isdir_in f' d = true.
Proof.
  unfold isdir_in. intros Hg. destruct (is_root d); [done|]. simpl.
  destruct (Hg d) as [->|[Hnone ->]]; [done|]. by rewrite Hnone.
Qed.

Lemma mkdir_exist_ok_grows (name : string) (w : world) :
  grown_by_directories (fs w) (fs (mkdir_exist_ok name w).2).
Proof.
  unfold mkdir_exist_ok, os_mkdir. run_io.
  destruct (exists_in (fs w) name) eqn:Ex; simpl.
  - destruct (isdir_in (fs w) name); apply grown_refl.
  - destruct (parent_isdir (fs w) name); simpl.
    + intros p. destruct (decide (name = p)) as [<-|Hne].
      * right. rewrite lookup_insert_eq. split; [|done].
        unfold exists_in in Ex. apply orb_false_iff in Ex as [_ Ex].
        apply bool_decide_eq_false in Ex.
        by destruct (fs w !! name); [destruct Ex; eauto|].
      * left. by rewrite lookup_insert_ne.
    + destruct (isdir_in (fs w) name); apply grown_refl.
Qed.

Lemma makedirs_from_grows (fuel : nat) (name : string) (w : world) :
  grown_by_directories (fs w) (fs (makedirs_from fuel name w).2).
Proof.
  revert name w. induction fuel as [|fuel IH]; intros name w.
  - cbn [makedirs_from].
    destruct (Posixpath.split name) as [head tail].
    destruct (if String.eqb tail "" then _ else _) as [head' tail'].
    run_io.
    destruct (_ && _ && _); [apply grown_refl|apply mkdir_exist_ok_grows].
  - cbn [makedirs_from].
    destruct (Posixpath.split name) as [head tail].
    destruct (if String.eqb tail "" then _ else _) as [head' tail'].
    run_io.
    destruct (_ && _ && _); [|apply mkdir_exist_ok_grows].
    pose proof (IH head' w) as IHh.
    destruct (makedirs_from fuel head' w) as [[[]|e] w1]; simpl in *; [|done].
    destruct (String.eqb tail' "."); simpl; [done|].
    eapply grown_trans; [exact IHh|apply mkdir_exist_ok_grows].
Qed.

Lemma split_join_name (output_root name : string) :
  Py.rpartition Posixpath.sep name = None ->
  (Posixpath.split (Posixpath.join output_root name)).2 = name.
Proof. apply basename_join. Qed.

(** X14. A [process_directory] that completes has made sure that
    [output_root/evidence_logs], [output_root/visuals] and
    [output_root/input] are directories, has changed the file system in no
    other way than by making directories where there was nothing (no report,
    no annotated image, no existing file touched), and has passed to
    [_analyze_image] the directory [output_root/input] and nothing else,
    whatever [input_dir] the caller named. *)
Theorem process_directory_only_makes_directories (self : detector)
    (input_dir output_root : string) (w w' : world) :
  has_magic (Posixpath.join output_root "input") = false ->
  process_directory self input_dir output_root w = (Return tt, w') ->
  isdir_in (fs w') (Posixpath.join output_root "evidence_logs") = true /\
  isdir_in (fs w') (Posixpath.join output_root "visuals") = true /\
  isdir_in (fs w') (Posixpath.join output_root "input") = true /\
  grown_by_directories (fs w) (fs w') /\
  calls w'
  = (calls w ++ [AnalyzeImage (Posixpath.join output_root "input")])%list.
Proof.
  intros Hmagic. unfold process_directory, os_makedirs.
  set (csv_dir := Posixpath.join output_root "evidence_logs").
  set (visuals_dir := Posixpath.join output_root "visuals").
  set (d := Posixpath.join output_root "input") in *.
  unfold bind at 1.
  pose proof (makedirs_from_run (String.length csv_dir) csv_dir w) as H1.
  pose proof (makedirs_from_grows (String.length csv_dir) csv_dir w) as G1.
  destruct (makedirs_from _ csv_dir w) as [[[]|e1] w1]; [|done].
  unfold bind at 1.
  pose proof (makedirs_from_run (String.length visuals_dir) visuals_dir w1) as H2.
  pose proof (makedirs_from_grows (String.length visuals_dir) visuals_dir w1) as G2.
  destruct (makedirs_from _ visuals_dir w1) as [[[]|e2] w2]; [|done].
  unfold bind at 1.
  pose proof (makedirs_from_run (String.length d) d w2) as H3.
  pose proof (makedirs_from_grows (String.length d) d w2) as G3.
  destruct (makedirs_from _ d w2) as [[[]|e3] w3]; [|done].
  cbv zeta in H1, H2, H3. simpl in H1, H2, H3, G1, G2, G3.
  destruct H1 as (_ & Hc1 & Hd1), H2 as (_ & Hc2 & Hd2), H3 as (_ & Hc3 & Hd3).
  assert (Hcsv : isdir_in (fs w1) csv_dir = true).
  { apply Hd1; [done|..]; subst csv_dir; by rewrite split_join_name. }
  assert (Hvis : isdir_in (fs w2) visuals_dir = true).
  { apply Hd2; [done|..]; subst visuals_dir; by rewrite split_join_name. }
  assert (Hd : isdir_in (fs w3) d = true).
  { apply Hd3; [done|..]; subst d; by rewrite split_join_name. }
  clear Hd1 Hd2 Hd3.
  assert (Hnode : fs w3 !! d = Some Dir).
  { unfold isdir_in in Hd. subst d. rewrite join_input_is_no_root in Hd.
    simpl in Hd. by destruct (fs w3 !! _) as [[]|]. }
  unfold glob_glob. run_io. rewrite Hmagic.
  pose proof (split_join_input output_root) as Htail. fold d in Htail.
  destruct (Posixpath.split d) as [dn bn]. simpl in Htail. subst bn.
  cbn [String.eqb Ascii.eqb Bool.eqb negb]. cbv beta iota.
  unfold exists_in. rewrite Hnode.
  rewrite bool_decide_eq_true_2 by eauto. rewrite orb_true_r.
  cbn [analyze_each]. run_io.
  rewrite analyze_unreadable
    by (unfold cv2_imread; run_io; by rewrite Hnode).
  cbv beta iota.
  intros [= <-]. simpl.
  split; [by eapply isdir_grown, isdir_grown|].
  split; [by eapply isdir_grown|].
  split; [done|].
  split; [by eapply grown_trans, grown_trans|].
  rewrite Hc3, Hc2, Hc1. reflexivity.
Qed.

(** *** The UI's tables and the detector's rows *)

(** X15. The table the UI offers for download is the report the analysis
    saved: the same rows in the same order. *)
Theorem download_is_the_saved_report (self : detector)
    (image_path csv_dir visuals_dir : string) (w : world) (image : image) :
  fs w !! image_path = Some (ImageFile image) ->
  writable (fs w) (report_path csv_dir (base_name_of image_path)) = true ->
  exists annotated_img csv_data w',
    _analyze_image self image_path csv_dir visuals_dir w
    = (Return (Some (annotated_img, csv_data)), w') /\
    forall s, evidence_summary csv_data = Some s ->
      fs w' !! report_path csv_dir (base_name_of image_path)
      = Some (CsvFile (df s)).
Proof.
  intros Hread Hwritable.
  eexists _, _, _. split; [by apply analyze_writable|].
  intros s Hs. pose proof Hs as Hsome.
  apply summary_of_rows in Hs as [-> _]. simpl.
  rewrite imwrite_fs_other by apply report_is_not_analysis.
  destruct (rows_from _ _ _ _ _ _); [done|].
  by rewrite lookup_insert_eq.
Qed.

Lemma filter_map_length {A B : Type} (f : A -> bool) (g : B -> bool)
    (h : A -> B) (l : list A) :
  Forall (fun x => f x = g (h x)) l ->
  length (List.filter f l) = length (List.filter g (map h l)).
Proof.
  induction 1 as [|x l Hx Hl IH]; [done|]. simpl. rewrite <- Hx.
  destruct (f x); simpl; by rewrite IH.
Qed.

Lemma table_labels (standard : yolo_model) (custom : option yolo_model)
    (image : image) :
  Forall
    (fun item =>
       Label item ∈
         [ "Person"; "Backpack"; "Handbag"; "Suitcase"; "Bottle";
           "Wine Glass"; "Cup"; "Bowl"; "Knife"; "Scissors"; "Cell Phone";
           "Laptop"; "TV/Monitor"; "Keyboard"; "Mouse"; "Gun";
           "Blood Stain" ])
    (merged_log (configure standard custom) image).
Proof.
  unfold merged_log. apply Forall_app. split.
  - eapply Forall_impl; [apply labelled_entries|].
    intros e [_ [k Hk]]. unfold configure in Hk. cbn [std_classes] in Hk.
    apply class_table_values in Hk. set_unfold in Hk.
    destruct Hk as [[? ?] [-> Hk]]. simpl.
    repeat (destruct Hk as [Hk|Hk];
            [injection Hk as _ <-; set_solver|]).
    done.
  - destruct custom as [custom|]; [|constructor].
    eapply Forall_impl; [apply labelled_entries|].
    intros e [_ [k Hk]]. unfold configure in Hk. cbn [cust_classes] in Hk.
    apply class_table_values in Hk. set_unfold in Hk.
    destruct Hk as [[? ?] [-> Hk]]. simpl.
    repeat (destruct Hk as [Hk|Hk];
            [injection Hk as _ <-; set_solver|]).
    done.
Qed.

(** X16. On the rows of an analysis, PERSONS IDENTIFIED counts exactly the
    badges of class "badge-person": among the labels the detector can give,
    "Person" is the only one to contain it. *)
Theorem persons_counts_the_person_badges (standard : yolo_model)
    (custom : option yolo_model) (image_path csv_dir visuals_dir : string)
    (w : world) (image : image) :
  let self := configure standard custom in
  fs w !! image_path = Some (ImageFile image) ->
  writable (fs w) (report_path csv_dir (base_name_of image_path)) = true ->
  exists annotated_img csv_data w',
    _analyze_image self image_path csv_dir visuals_dir w
    = (Return (Some (annotated_img, csv_data)), w') /\
    forall s, evidence_summary csv_data = Some s ->
      persons s
      = length (List.filter
                  (fun badge => String.eqb badge.1.1 "badge-person")
                  (evidence_badges s)).
Proof.
  intros self Hread Hwritable.
  eexists _, _, _. split; [by apply analyze_writable|].
  intros s Hs. apply summary_of_rows in Hs as [Hdf Hhigh].
  unfold persons, evidence_badges.
  assert (Hlabels : Forall
            (fun row =>
               String.eqb (Evidence_Type row) "Person"
               = String.eqb (badge_class (Evidence_Type row)) "badge-person")
            (high_conf_df s)).
  { apply Forall_forall. intros row Hrow.
    rewrite Hhigh in Hrow. apply list_elem_of_In, List.filter_In in Hrow.
    destruct Hrow as [Hrow _]. rewrite Hdf in Hrow.
    apply (Permutation_in _ (sort_values_desc_perm _)) in Hrow.
    apply list_elem_of_In in Hrow.
    pose proof (rows_from_fields self (shape_w image) (shape_h image)
                  (base_name_of image_path) (clock w)
                  (merged_log self image)) as Hf.
    apply (Forall2_Forall_r _
             (fun row =>
                String.eqb (Evidence_Type row) "Person"
                = String.eqb (badge_class (Evidence_Type row)) "badge-person"))
      in Hf.
    - rewrite Forall_forall in Hf. by apply Hf.
    - eapply Forall_impl; [apply table_labels|].
      intros item Hitem r (_ & -> & _). set_unfold in Hitem.
      repeat (destruct Hitem as [->|Hitem]; [by vm_compute|]). done. }
  exact (filter_map_length
           (fun row => String.eqb (Evidence_Type row) "Person")
           (fun badge : string * string * string =>
              String.eqb badge.1.1 "badge-person")
           (fun row => (badge_class (Evidence_Type row), Evidence_Type row,
                        Confidence_Text row))
           _ Hlabels).
Qed.

(** *** [process_directory] completes *)

Lemma rstrip_keeps (c : ascii) (s : string) :
  Py.endswith_char c s = false -> Py.rstrip c s = s.
Proof.
  induction s as [|x s IH]; [done|]. simpl.
  destruct s as [|y s].
  - intros ->. done.
  - intros Hs. rewrite (IH Hs). done.
Qed.

Lemma rstrip_one (c : ascii) (s : string) :
  s <> "" -> Py.endswith_char c s = false ->
  Py.rstrip c (s +:+ String c "") = s.
Proof.
  induction s as [|x s IH]; [done|]. intros _ Hs.
  change (String x s +:+ String c "") with (String x (s +:+ String c "")).
  cbn [Py.rstrip]. destruct s as [|y s].
  - change ("" +:+ String c "") with (String c ""). simpl in *.
    rewrite Ascii.eqb_refl. by rewrite Hs.
  - rewrite IH; [done|done|exact Hs].
Qed.

Lemma all_char_append_one (c : ascii) (s : string) :
  s <> "" -> Py.endswith_char c s = false ->
  Py.all_char c (s +:+ String c "") = false.
Proof.
  induction s as [|x s IH]; [done|]. intros _ Hs.
  change (String x s +:+ String c "") with (String x (s +:+ String c "")).
  cbn [Py.all_char]. destruct s as [|y s].
  - simpl in Hs. by rewrite Hs.
  - rewrite IH; [apply andb_false_r|done|exact Hs].
Qed.

Lemma split_child (dir name : string) :
  dir <> "" -> Py.endswith_char Posixpath.sep dir = false ->
  Py.rpartition Posixpath.sep name = None ->
  Posixpath.split (dir +:+ "/" +:+ name) = (dir, name).
Proof.
  intros Hdir Hend Hname. unfold Posixpath.split.
  change (dir +:+ "/" +:+ name) with (dir +:+ String Posixpath.sep name).
  rewrite rpartition_at_last by done.
  change (dir +:+ "/") with (dir +:+ String Posixpath.sep "").
  by rewrite all_char_append_one, rstrip_one.
Qed.

Lemma makedirs_child (dir name : string) (w : world) :
  dir <> "" -> Py.endswith_char Posixpath.sep dir = false ->
  Py.rpartition Posixpath.sep name = None -> name <> "" ->
  fs w !! dir = Some Dir ->
  fs w !! (dir +:+ "/" +:+ name) = None \/
  fs w !! (dir +:+ "/" +:+ name) = Some Dir ->
  (os_makedirs (dir +:+ "/" +:+ name) w).1 = Return tt.
Proof.
  intros Hdir Hend Hname Hne Hparent Hchild.
  unfold os_makedirs.
  assert (Hstep : forall fuel,
            makedirs_from fuel (dir +:+ "/" +:+ name) w
            = mkdir_exist_ok (dir +:+ "/" +:+ name) w).
  { intros fuel. destruct fuel; cbn [makedirs_from];
      rewrite split_child by done;
      (destruct (String.eqb name "") eqn:E;
       [by apply String.eqb_eq in E|]);
      run_io; unfold exists_in; rewrite Hparent;
      rewrite bool_decide_eq_true_2 by eauto;
      by rewrite orb_true_r, andb_false_r. }
  rewrite Hstep. unfold mkdir_exist_ok, os_mkdir. run_io.
  unfold exists_in, isdir_in, parent_isdir, Posixpath.dirname.
  rewrite split_child by done. cbn [fst].
  assert (Hroot : is_root (dir +:+ "/" +:+ name) = false).
  { unfold is_root. apply andb_false_iff. right.
    destruct (Py.all_char _ _) eqn:E; [|done]. exfalso.
    assert (Hall : forall s t c, Py.all_char c (s +:+ t) = true ->
                                 Py.all_char c t = true).
    { intros s t c. induction s as [|y s IH]; [done|].
      change (String y s +:+ t) with (String y (s +:+ t)). simpl.
      intros [_ Hs]%andb_true_iff. by apply IH. }
    apply Hall in E. destruct name as [|x name]; [done|].
    change ("/" +:+ String x name) with (String "/" (String x name)) in E.
    cbn [Py.all_char] in E.
    apply andb_true_iff in E as [_ E]. apply andb_true_iff in E as [Ex _].
    apply Ascii.eqb_eq in Ex as ->. simpl in Hname.
    by destruct (Py.rpartition Posixpath.sep name) as [[? ?]|]. }
  rewrite Hroot. cbn [orb].
  destruct Hchild as [Hc|Hc]; rewrite Hc.
  - rewrite bool_decide_eq_false_2 by (intros [? ?]; congruence).
    unfold isdir_in. rewrite Hparent. by rewrite !orb_true_r.
  - rewrite bool_decide_eq_true_2 by eauto. simpl. by rewrite Hc.
Qed.

Lemma join_child (dir name : string) :
  dir <> "" -> Py.endswith_char Posixpath.sep dir = false ->
  Py.rpartition Posixpath.sep name = None ->
  Posixpath.join dir name = dir +:+ "/" +:+ name.
Proof.
  intros Hdir Hend Hname. unfold Posixpath.join.
  assert (Hstart : Py.startswith "/" name = false).
  { destruct name as [|x name]; [done|]. cbn [Py.startswith].
    destruct (Ascii.eqb "/" x) eqn:Ex; [|done].
    apply Ascii.eqb_eq in Ex as <-. simpl in Hname.
    by destruct (Py.rpartition Posixpath.sep name) as [[? ?]|]. }
  rewrite Hstart, Hend.
  destruct (String.eqb dir "") eqn:E; [by apply String.eqb_eq in E|done].
Qed.

Lemma scan_of_input_directory (self : detector)
    (output_root csv_dir visuals_dir : string) (w : world) :
  has_magic (Posixpath.join output_root "input") = false ->
  fs w !! Posixpath.join output_root "input" = Some Dir ->
  bind (glob_glob (Posixpath.join output_root "input"))
    (fun image_files =>
       bind (analyze_each self image_files csv_dir visuals_dir)
         (fun _ => ret tt)) w
  = (Return tt,
     after 0 [AnalyzeImage (Posixpath.join output_root "input")] w).
Proof.
  intros Hmagic Hnode. set (d := Posixpath.join output_root "input") in *.
  unfold glob_glob. run_io. rewrite Hmagic.
  pose proof (split_join_input output_root) as Htail. fold d in Htail.
  destruct (Posixpath.split d) as [dn bn]. simpl in Htail. subst bn.
  cbn [String.eqb Ascii.eqb Bool.eqb negb]. cbv beta iota.
  unfold exists_in. rewrite Hnode.
  rewrite bool_decide_eq_true_2 by eauto. rewrite orb_true_r.
  cbn [analyze_each]. run_io.
  rewrite analyze_unreadable
    by (unfold cv2_imread; run_io; by rewrite Hnode).
  done.
Qed.

Lemma grown_keeps_directory (f f' : gmap string node) (p : string) :
  grown_by_directories f f' -> f !! p = Some Dir -> f' !! p = Some Dir.
Proof. intros Hg Hp. destruct (Hg p) as [->|[Hnone _]]; congruence. Qed.

Lemma grown_keeps_room (f f' : gmap string node) (p : string) :
  grown_by_directories f f' ->
  f !! p = None \/ f !! p = Some Dir ->
  f' !! p = None \/ f' !! p = Some Dir.
Proof.
  intros Hg Hp. destruct (Hg p) as [->|[_ ->]]; [done|by right].
Qed.

(** X17. [process_directory] completes without an error whenever
    [output_root] is an existing directory and none of
    [output_root/evidence_logs], [output_root/visuals] and
    [output_root/input] is taken by a file. *)
Theorem process_directory_completes (self : detector)
    (input_dir output_root : string) (w : world) :
  output_root <> "" ->
  Py.endswith_char Posixpath.sep output_root = false ->
  has_magic (Posixpath.join output_root "input") = false ->
  fs w !! output_root = Some Dir ->
  (forall name, name ∈ ["evidence_logs"; "visuals"; "input"] ->
     fs w !! Posixpath.join output_root name = None \/
     fs w !! Posixpath.join output_root name = Some Dir) ->
  exists w', process_directory self input_dir output_root w = (Return tt, w').
Proof.
  intros Hroot Hend Hmagic Hdir Hfree.
  assert (Hstep : forall name w0,
            name ∈ ["evidence_logs"; "visuals"; "input"] ->
            grown_by_directories (fs w) (fs w0) ->
            (os_makedirs (Posixpath.join output_root name) w0).1 = Return tt).
  { intros name w0 Hname Hgrown.
    assert (Hsep : Py.rpartition Posixpath.sep name = None)
      by (set_unfold in Hname; by destruct Hname as [->|[->|[->|[]]]]).
    assert (Hne : name <> "")
      by (set_unfold in Hname; by destruct Hname as [->|[->|[->|[]]]]).
    pose proof (Hfree name Hname) as Hroom.
    rewrite join_child in * by done.
    apply makedirs_child; try done.
    - by eapply grown_keeps_directory.
    - by eapply grown_keeps_room. }
  unfold process_directory.
  unfold bind at 1.
  pose proof (Hstep "evidence_logs" w ltac:(set_solver) (grown_refl _)) as R1.
  pose proof (makedirs_from_grows
                (String.length (Posixpath.join output_root "evidence_logs"))
                (Posixpath.join output_root "evidence_logs") w) as G1.
  unfold os_makedirs in *.
  destruct (makedirs_from _ (Posixpath.join output_root "evidence_logs") w)
    as [[[]|e1] w1]; [|done]. simpl in G1.
  unfold bind at 1.
  pose proof (Hstep "visuals" w1 ltac:(set_solver) G1) as R2.
  pose proof (makedirs_from_grows
                (String.length (Posixpath.join output_root "visuals"))
                (Posixpath.join output_root "visuals") w1) as G2.
  destruct (makedirs_from _ (Posixpath.join output_root "visuals") w1)
    as [[[]|e2] w2]; [|done]. simpl in G2.
  assert (G12 : grown_by_directories (fs w) (fs w2))
    by by eapply grown_trans.
  unfold bind at 1.
  pose proof (Hstep "input" w2 ltac:(set_solver) G12) as R3.
  pose proof (makedirs_from_run
                (String.length (Posixpath.join output_root "input"))
                (Posixpath.join output_root "input") w2) as H3.
  destruct (makedirs_from _ (Posixpath.join output_root "input") w2)
    as [[[]|e3] w3]; [|done].
  cbv zeta in H3. simpl in H3. destruct H3 as (_ & _ & Hd).
  assert (Hnode : fs w3 !! Posixpath.join output_root "input" = Some Dir).
  { assert (Hisdir : isdir_in (fs w3) (Posixpath.join output_root "input")
                     = true).
    { apply Hd; [done|..]; by rewrite split_join_input. }
    unfold isdir_in in Hisdir. rewrite join_input_is_no_root in Hisdir.
    simpl in Hisdir. by destruct (fs w3 !! _) as [[]|]. }
  rewrite scan_of_input_directory by done. by eexists.
Qed.

End Properties.

(** ** The properties on the sample scene *)

#[local] Existing Instance sample_runtime.

Lemma sample_scene_readable :
  fs sample_world !! "crime_scenes/scene_1.png" = Some (ImageFile sample_image).
Proof. vm_compute. reflexivity. Qed.

Lemma sample_report_writable :
  writable (fs sample_world)
    (report_path "output/evidence_logs"
       (base_name_of "crime_scenes/scene_1.png")) = true.
Proof. vm_compute. reflexivity. Qed.

Lemma sample_analysis_writable :
  writable (fs sample_world)
    (analysis_path "output/visuals"
       (base_name_of "crime_scenes/scene_1.png")) = true.
Proof. vm_compute. reflexivity. Qed.

Lemma merged_log_concatenates_both_passes_witness :
  fs sample_world !! "crime_scenes/scene_1.png" = Some (ImageFile sample_image) /\
  writable (fs sample_world)
    (report_path "output/evidence_logs"
       (base_name_of "crime_scenes/scene_1.png")) = true /\
  exists annotated_img csv_data w',
    _analyze_image sample_detector "crime_scenes/scene_1.png"
      "output/evidence_logs" "output/visuals" sample_world
    = (Return (Some (annotated_img, csv_data)), w') /\
    Forall2
      (fun item row =>
         Model_Source row = Source item /\
         Evidence_Type row = Label item /\
         Confidence_Score row = Conf item)
      (merged_log sample_detector sample_image) csv_data.
Proof.
  split; [exact sample_scene_readable|].
  split; [exact sample_report_writable|].
  exact (proj2 (merged_log_concatenates_both_passes sample_detector
                  "crime_scenes/scene_1.png" "output/evidence_logs"
                  "output/visuals" sample_world sample_image
                  sample_scene_readable sample_report_writable)).
Defined.

Lemma sample_person_confident :
  (VISUAL_CUTOFF sample_detector < Conf sample_person)%Q.
Proof. reflexivity. Qed.

Lemma visualized_yes_iff_box_drawn_witness :
  fs sample_world !! "crime_scenes/scene_1.png" = Some (ImageFile sample_image) /\
  writable (fs sample_world)
    (report_path "output/evidence_logs"
       (base_name_of "crime_scenes/scene_1.png")) = true /\
  exists annotated_img csv_data drawn w',
    _analyze_image sample_detector "crime_scenes/scene_1.png"
      "output/evidence_logs" "output/visuals" sample_world
    = (Return (Some (annotated_img, csv_data)), w') /\
    overlays annotated_img = (overlays sample_image ++ concat drawn)%list /\
    Forall3
      (fun item row ops =>
         ((float_0_30 < Conf item)%Q ->
          Visualized row = "YES" /\
          ops = box_and_label sample_detector 640 480 item) /\
         (~ (float_0_30 < Conf item)%Q ->
          Visualized row = "NO" /\ ops = []))
      (merged_log sample_detector sample_image) csv_data drawn /\
    forall s, evidence_summary csv_data = Some s ->
      high_conf_df s
      = List.filter (fun row => String.eqb (Visualized row) "YES") (df s).
Proof.
  split; [exact sample_scene_readable|].
  split; [exact sample_report_writable|].
  exact (visualized_yes_iff_box_drawn sample_standard (Some sample_custom)
           "crime_scenes/scene_1.png" "output/evidence_logs" "output/visuals"
           sample_world sample_image
           sample_scene_readable sample_report_writable).
Defined.

Lemma label_flips_below_exactly_at_top_edge_witness :
  (VISUAL_CUTOFF sample_detector < Conf sample_person)%Q /\
  exists (x1 y1 x2 y2 : Z) (lbl : string) (g : label_geometry)
         (box_rect label_text : draw_op) csv_data' w',
    clamped 640 480 (Box sample_person) = (x1, y1, x2, y2) /\
    lbl = Label sample_person +:+ " " +:+ format_percent 0 (Conf sample_person) /\
    visualize_item sample_detector 640 480 "scene_1" sample_person
      sample_image [] sample_world
    = (Return
         (paint sample_image
            [ box_rect;
              Rectangle (bg_x1 g, bg_y1 g) (bg_x2 g, bg_y2 g)
                (colors sample_detector !!! "bg_label") (-1);
              label_text ],
          csv_data'), w') /\
    let text_h := (getTextSize lbl).2 in
    ((y1 - text_h - 10 < 0)%Z ->
     bg_y1 g = y1 /\ bg_y2 g = (y1 + text_h + 10)%Z) /\
    ((0 <= y1 - text_h - 10)%Z ->
     bg_y1 g = (y1 - text_h - 10)%Z /\ bg_y2 g = y1).
Proof.
  split; [exact sample_person_confident|].
  exact (label_flips_below_exactly_at_top_edge sample_detector 640 480
           "scene_1" sample_person sample_image [] sample_world
           sample_person_confident).
Defined.

Lemma sample_gun_confident :
  (VISUAL_CUTOFF sample_detector < Conf sample_gun)%Q.
Proof. reflexivity. Qed.

Lemma label_background_stays_left_of_right_edge_witness :
  (VISUAL_CUTOFF sample_detector < Conf sample_gun)%Q /\
  clamped 640 480 (Box sample_gun) = (600, 100, 630, 200)%Z /\
  (600 + (getTextSize
            (Label sample_gun +:+ " " +:+ format_percent 0 (Conf sample_gun))).1
   + 10 > 640)%Z /\
  exists (x1 y1 x2 y2 : Z) (lbl : string) (g : label_geometry)
         (box_rect : draw_op) csv_data' w',
    clamped 640 480 (Box sample_gun) = (x1, y1, x2, y2) /\
    lbl = Label sample_gun +:+ " " +:+ format_percent 0 (Conf sample_gun) /\
    visualize_item sample_detector 640 480 "scene_1" sample_gun
      sample_image [] sample_world
    = (Return
         (paint sample_image
            [ box_rect;
              Rectangle (bg_x1 g, bg_y1 g) (bg_x2 g, bg_y2 g)
                (colors sample_detector !!! "bg_label") (-1);
              PutText lbl (text_x g, text_y g) 1
                (colors sample_detector !!! "text") 2 ],
          csv_data'), w') /\
    let text_w := (getTextSize lbl).1 in
    let shift_amount := ((x1 + text_w + 10) - 640)%Z in
    (bg_x2 g <= 640)%Z /\
    ((x1 + text_w + 10 > 640)%Z ->
     bg_x1 g = (x1 - shift_amount)%Z /\
     bg_x2 g = (x1 + text_w + 10 - shift_amount)%Z /\
     text_x g = (x1 + 5 - shift_amount)%Z) /\
    ((x1 + text_w + 10 <= 640)%Z ->
     bg_x1 g = x1 /\ bg_x2 g = (x1 + text_w + 10)%Z /\
     text_x g = (x1 + 5)%Z).
Proof.
  split; [exact sample_gun_confident|].
  split; [reflexivity|].
  split; [reflexivity|].
  exact (label_background_stays_left_of_right_edge sample_detector 640 480
           "scene_1" sample_gun sample_image [] sample_world
           sample_gun_confident).
Defined.

Lemma coords_clamped_to_image_witness :
  fs sample_world !! "crime_scenes/scene_1.png" = Some (ImageFile sample_image) /\
  writable (fs sample_world)
    (report_path "output/evidence_logs"
       (base_name_of "crime_scenes/scene_1.png")) = true /\
  exists annotated_img csv_data w',
    _analyze_image sample_detector "crime_scenes/scene_1.png"
      "output/evidence_logs" "output/visuals" sample_world
    = (Return (Some (annotated_img, csv_data)), w') /\
    Forall (coords_within 640 480) csv_data /\
    (csv_data <> [] ->
     exists rows,
       fs w' !! report_path "output/evidence_logs"
                  (base_name_of "crime_scenes/scene_1.png")
       = Some (CsvFile rows) /\
       length rows = length csv_data /\
       Forall (coords_within 640 480) rows).
Proof.
  split; [exact sample_scene_readable|].
  split; [exact sample_report_writable|].
  exact (coords_clamped_to_image sample_detector "crime_scenes/scene_1.png"
           "output/evidence_logs" "output/visuals" sample_world sample_image
           sample_scene_readable sample_report_writable).
Defined.

Lemma sample_notes_unreadable :
  cv2_imread "crime_scenes/notes.txt" sample_world = (Return None, sample_world).
Proof. vm_compute. reflexivity. Qed.

Lemma unreadable_image_returns_none_witness :
  cv2_imread "crime_scenes/notes.txt" sample_world = (Return None, sample_world) /\
  exists w',
    _analyze_image sample_detector "crime_scenes/notes.txt"
      "output/evidence_logs" "output/visuals" sample_world
    = (Return None, w') /\
    fs w' = fs sample_world /\
    calls w' = (calls sample_world ++ [AnalyzeImage "crime_scenes/notes.txt"])%list.
Proof.
  split; [exact sample_notes_unreadable|].
  exact (unreadable_image_returns_none sample_detector
           "crime_scenes/notes.txt" "output/evidence_logs" "output/visuals"
           sample_world sample_notes_unreadable).
Defined.

Lemma annotated_image_always_csv_when_detections_witness :
  fs sample_world !! "crime_scenes/scene_1.png" = Some (ImageFile sample_image) /\
  writable (fs sample_world)
    (report_path "output/evidence_logs"
       (base_name_of "crime_scenes/scene_1.png")) = true /\
  writable (fs sample_world)
    (analysis_path "output/visuals"
       (base_name_of "crime_scenes/scene_1.png")) = true /\
  exists annotated_img csv_data w',
    _analyze_image sample_detector "crime_scenes/scene_1.png"
      "output/evidence_logs" "output/visuals" sample_world
    = (Return (Some (annotated_img, csv_data)), w') /\
    fs w' !! analysis_path "output/visuals"
               (base_name_of "crime_scenes/scene_1.png")
    = Some (ImageFile annotated_img) /\
    length csv_data = length (merged_log sample_detector sample_image) /\
    (merged_log sample_detector sample_image <> [] ->
     exists rows,
       fs w' !! report_path "output/evidence_logs"
                  (base_name_of "crime_scenes/scene_1.png")
       = Some (CsvFile rows) /\ Permutation rows csv_data) /\
    (merged_log sample_detector sample_image = [] ->
     fs w' !! report_path "output/evidence_logs"
                (base_name_of "crime_scenes/scene_1.png")
     = fs sample_world !! report_path "output/evidence_logs"
                            (base_name_of "crime_scenes/scene_1.png")).
Proof.
  split; [exact sample_scene_readable|].
  split; [exact sample_report_writable|].
  split; [exact sample_analysis_writable|].
  exact (annotated_image_always_csv_when_detections sample_detector
           "crime_scenes/scene_1.png" "output/evidence_logs" "output/visuals"
           sample_world sample_image sample_scene_readable
           sample_report_writable sample_analysis_writable).
Defined.

Lemma sample_log_not_empty : merged_log sample_detector sample_image <> [].
Proof. vm_compute. discriminate. Qed.

Lemma csv_rows_sorted_by_descending_confidence_witness :
  fs sample_world !! "crime_scenes/scene_1.png" = Some (ImageFile sample_image) /\
  writable (fs sample_world)
    (report_path "output/evidence_logs"
       (base_name_of "crime_scenes/scene_1.png")) = true /\
  merged_log sample_detector sample_image <> [] /\
  exists annotated_img csv_data rows,
    (_analyze_image sample_detector "crime_scenes/scene_1.png"
       "output/evidence_logs" "output/visuals" sample_world).1
    = Return (Some (annotated_img, csv_data)) /\
    length csv_data = length (merged_log sample_detector sample_image) /\
    fs (_analyze_image sample_detector "crime_scenes/scene_1.png"
          "output/evidence_logs" "output/visuals" sample_world).2
      !! report_path "output/evidence_logs"
           (base_name_of "crime_scenes/scene_1.png")
    = Some (CsvFile rows) /\
    sorted_desc rows /\
    Permutation rows csv_data.
Proof.
  split; [exact sample_scene_readable|].
  split; [exact sample_report_writable|].
  split; [exact sample_log_not_empty|].
  exact (proj1 (proj2 (csv_rows_sorted_by_descending_confidence
                         sample_detector "crime_scenes/scene_1.png"
                         "output/evidence_logs" "output/visuals" sample_world))
           sample_image sample_scene_readable sample_report_writable
           sample_log_not_empty).
Defined.

(** C5, as stated, fails: the image is readable and both output
    directories exist, yet with no tracked detection the analysis writes the
    annotated image and no CSV file at all. *)
Lemma no_csv_without_detections :
  let run :=
    _analyze_image car_detector "crime_scenes/scene_1.png"
      "output/evidence_logs" "output/visuals" sample_world in
  cv2_imread "crime_scenes/scene_1.png" sample_world
  = (Return (Some sample_image), sample_world) /\
  writable (fs sample_world) "output/evidence_logs/scene_1_FULL_REPORT.csv"
  = true /\
  run.1 = Return (Some (sample_image, [])) /\
  fs run.2 !! "output/visuals/scene_1_ANALYSIS.jpg"
  = Some (ImageFile sample_image) /\
  fs run.2 !! "output/evidence_logs/scene_1_FULL_REPORT.csv" = None /\
  csv_files (fs run.2) = [].
Proof. vm_compute. repeat split. Qed.

(** C4 on the sample scene: the caller names [crime_scenes], which holds a
    readable image, and [process_directory] passes only the directory
    [output/input] to [_analyze_image]; neither model is run. *)
Lemma process_directory_misses_the_input_images :
  let run :=
    process_directory sample_detector "crime_scenes" "output" sample_world in
  cv2_imread "crime_scenes/scene_1.png" sample_world
  = (Return (Some sample_image), sample_world) /\
  run.1 = Return tt /\
  calls run.2 = [AnalyzeImage "output/input"] /\
  csv_files (fs run.2) = [] /\
  fs run.2 !! "output/visuals/scene_1_ANALYSIS.jpg" = None.
Proof. vm_compute. repeat split. Qed.

(** ** Further properties on the sample scene *)

Lemma analysis_touches_only_its_two_outputs_witness :
  "crime_scenes/notes.txt"
  <> report_path "output/evidence_logs"
       (base_name_of "crime_scenes/scene_1.png") /\
  "crime_scenes/notes.txt"
  <> analysis_path "output/visuals"
       (base_name_of "crime_scenes/scene_1.png") /\
  fs (_analyze_image sample_detector "crime_scenes/scene_1.png"
        "output/evidence_logs" "output/visuals" sample_world).2
    !! "crime_scenes/notes.txt"
  = fs sample_world !! "crime_scenes/notes.txt".
Proof.
  assert (H1 : "crime_scenes/notes.txt"
               <> report_path "output/evidence_logs"
                    (base_name_of "crime_scenes/scene_1.png"))
    by (vm_compute; discriminate).
  assert (H2 : "crime_scenes/notes.txt"
               <> analysis_path "output/visuals"
                    (base_name_of "crime_scenes/scene_1.png"))
    by (vm_compute; discriminate).
  split; [exact H1|]. split; [exact H2|].
  exact (analysis_touches_only_its_two_outputs sample_detector
           "crime_scenes/scene_1.png" "output/evidence_logs" "output/visuals"
           sample_world "crime_scenes/notes.txt" H1 H2).
Defined.

Lemma sample_report_unwritable :
  writable (fs sample_world)
    (report_path "missing" (base_name_of "crime_scenes/scene_1.png")) = false.
Proof. vm_compute. reflexivity. Qed.

Lemma sample_analysis_unwritable :
  writable (fs sample_world)
    (analysis_path "missing" (base_name_of "crime_scenes/scene_1.png")) = false.
Proof. vm_compute. reflexivity. Qed.

Lemma unwritable_report_raises_and_writes_nothing_witness :
  fs sample_world !! "crime_scenes/scene_1.png" = Some (ImageFile sample_image) /\
  merged_log sample_detector sample_image <> [] /\
  writable (fs sample_world)
    (report_path "missing" (base_name_of "crime_scenes/scene_1.png")) = false /\
  exists w',
    _analyze_image sample_detector "crime_scenes/scene_1.png" "missing"
      "output/visuals" sample_world = (Raise OSError, w') /\
    fs w' = fs sample_world /\
    calls w'
    = (calls sample_world ++
       AnalyzeImage "crime_scenes/scene_1.png" ::
       predictions sample_detector sample_image)%list.
Proof.
  split; [exact sample_scene_readable|].
  split; [exact sample_log_not_empty|].
  split; [exact sample_report_unwritable|].
  exact (unwritable_report_raises_and_writes_nothing sample_detector
           "crime_scenes/scene_1.png" "missing" "output/visuals" sample_world
           sample_image sample_scene_readable sample_log_not_empty
           sample_report_unwritable).
Defined.

Lemma unwritable_visuals_is_silent_witness :
  fs sample_world !! "crime_scenes/scene_1.png" = Some (ImageFile sample_image) /\
  writable (fs sample_world)
    (report_path "output/evidence_logs"
       (base_name_of "crime_scenes/scene_1.png")) = true /\
  writable (fs sample_world)
    (analysis_path "missing" (base_name_of "crime_scenes/scene_1.png")) = false /\
  exists annotated_img csv_data w',
    _analyze_image sample_detector "crime_scenes/scene_1.png"
      "output/evidence_logs" "missing" sample_world
    = (Return (Some (annotated_img, csv_data)), w') /\
    fs w' !! analysis_path "missing" (base_name_of "crime_scenes/scene_1.png")
    = fs sample_world
        !! analysis_path "missing" (base_name_of "crime_scenes/scene_1.png") /\
    (csv_data <> [] ->
     fs w' !! report_path "output/evidence_logs"
                (base_name_of "crime_scenes/scene_1.png")
     = Some (CsvFile (sort_values_desc csv_data))).
Proof.
  split; [exact sample_scene_readable|].
  split; [exact sample_report_writable|].
  split; [exact sample_analysis_unwritable|].
  exact (unwritable_visuals_is_silent sample_detector
           "crime_scenes/scene_1.png" "output/evidence_logs" "missing"
           sample_world sample_image sample_scene_readable
           sample_report_writable sample_analysis_unwritable).
Defined.

Lemma summary_counts_the_drawn_boxes_witness :
  fs sample_world !! "crime_scenes/scene_1.png" = Some (ImageFile sample_image) /\
  writable (fs sample_world)
    (report_path "output/evidence_logs"
       (base_name_of "crime_scenes/scene_1.png")) = true /\
  exists annotated_img csv_data w',
    _analyze_image sample_detector "crime_scenes/scene_1.png"
      "output/evidence_logs" "output/visuals" sample_world
    = (Return (Some (annotated_img, csv_data)), w') /\
    match summary_view_of csv_data with
    | NoEvidence =>
        merged_log sample_detector sample_image = [] /\
        annotated_img = sample_image
    | NoHighConfidence =>
        merged_log sample_detector sample_image <> [] /\
        annotated_img = sample_image
    | FullReport s =>
        0 < total_evidence s /\
        length (overlays annotated_img)
        = length (overlays sample_image) + 3 * total_evidence s /\
        length (display_df s) = total_evidence s /\
        length (evidence_badges s) = total_evidence s /\
        Forall (fun shown : display_row => shown.2 = "YES") (display_df s)
    end.
Proof.
  split; [exact sample_scene_readable|].
  split; [exact sample_report_writable|].
  exact (summary_counts_the_drawn_boxes sample_standard (Some sample_custom)
           "crime_scenes/scene_1.png" "output/evidence_logs" "output/visuals"
           sample_world sample_image sample_scene_readable
           sample_report_writable).
Defined.

Lemma custom_detection_needs_custom_weights_witness :
  fs sample_world !! "crime_scenes/scene_1.png" = Some (ImageFile sample_image) /\
  writable (fs sample_world)
    (report_path "output/evidence_logs"
       (base_name_of "crime_scenes/scene_1.png")) = true /\
  exists self annotated_img csv_data w',
    __init__ "yolov8l.pt" "best.pt" sample_world = (Return self, sample_world) /\
    _analyze_image self "crime_scenes/scene_1.png" "output/evidence_logs"
      "output/visuals" sample_world
    = (Return (Some (annotated_img, csv_data)), w') /\
    calls w'
    = (calls sample_world ++
       AnalyzeImage "crime_scenes/scene_1.png" ::
       Predict StandardModel sample_image ::
       (if exists_in (fs sample_world) "best.pt"
        then [Predict CustomModel sample_image] else []))%list /\
    (exists_in (fs sample_world) "best.pt" = false ->
     Forall (fun row => Model_Source row = "Standard_Model") csv_data).
Proof.
  split; [exact sample_scene_readable|].
  split; [exact sample_report_writable|].
  exact (custom_detection_needs_custom_weights "yolov8l.pt" "best.pt"
           "crime_scenes/scene_1.png" "output/evidence_logs" "output/visuals"
           sample_world sample_image sample_scene_readable
           sample_report_writable).
Defined.

Lemma analyze_evidence_raises_on_undecodable_upload_witness :
  cv2_imread "crime_scenes/notes.txt" sample_world = (Return None, sample_world) /\
  cvtColor_accepts sample_rgb_array = true /\
  exists w',
    analyze_evidence sample_rgb_array "crime_scenes/notes.txt" sample_world
    = (Raise (if cvtColor_accepts sample_rgb_array
              then TypeError else Cv2Error), w') /\
    fs w' = fs sample_world /\
    calls w'
    = (calls sample_world ++
       (if cvtColor_accepts sample_rgb_array
        then [AnalyzeImage "crime_scenes/notes.txt"] else []))%list.
Proof.
  split; [exact sample_notes_unreadable|].
  split; [reflexivity|].
  exact (analyze_evidence_raises_on_undecodable_upload sample_rgb_array
           "crime_scenes/notes.txt" sample_world sample_notes_unreadable).
Defined.

Lemma label_background_stays_below_top_and_right_of_left_witness :
  (VISUAL_CUTOFF sample_detector < Conf sample_person)%Q /\
  exists (lbl : string) (g : label_geometry)
         (box_rect label_text : draw_op) csv_data' w',
    lbl = Label sample_person +:+ " " +:+ format_percent 0 (Conf sample_person) /\
    visualize_item sample_detector 640 480 "scene_1" sample_person
      sample_image [] sample_world
    = (Return
         (paint sample_image
            [ box_rect;
              Rectangle (bg_x1 g, bg_y1 g) (bg_x2 g, bg_y2 g)
                (colors sample_detector !!! "bg_label") (-1);
              label_text ],
          csv_data'), w') /\
    (0 <= bg_y1 g)%Z /\
    (((getTextSize lbl).1 + 10 <= 640)%Z -> (0 <= bg_x1 g)%Z).
Proof.
  split; [exact sample_person_confident|].
  exact (label_background_stays_below_top_and_right_of_left sample_detector
           640 480 "scene_1" sample_person sample_image [] sample_world
           sample_person_confident).
Defined.

Lemma overlapping_box_is_clamped_in_order_witness :
  Box sample_person = (-7 # 2, 21 # 2, 700 # 1, 500 # 1)%Q /\
  (0 <= 640)%Z /\ (0 <= 480)%Z /\
  exists annotated_img' row w' (x1 y1 x2 y2 : Z),
    visualize_item sample_detector 640 480 "scene_1" sample_person
      sample_image [] sample_world
    = (Return (annotated_img', ([] ++ [row])%list), w') /\
    Coords row = [x1; y1; x2; y2] /\
    ((Py.int (-7 # 2) <= Py.int (700 # 1))%Z -> (Py.int (-7 # 2) <= 640)%Z ->
     (0 <= Py.int (700 # 1))%Z -> (0 <= x1 <= x2)%Z /\ (x2 <= 640)%Z) /\
    ((Py.int (21 # 2) <= Py.int (500 # 1))%Z -> (Py.int (21 # 2) <= 480)%Z ->
     (0 <= Py.int (500 # 1))%Z -> (0 <= y1 <= y2)%Z /\ (y2 <= 480)%Z) /\
    ((640 < Py.int (-7 # 2))%Z \/ (Py.int (700 # 1) < 0)%Z -> (x2 < x1)%Z).
Proof.
  assert (Hw : (0 <= 640)%Z) by lia.
  assert (Hh : (0 <= 480)%Z) by lia.
  split; [reflexivity|]. split; [exact Hw|]. split; [exact Hh|].
  exact (overlapping_box_is_clamped_in_order sample_detector 640 480
           "scene_1" sample_person sample_image [] sample_world
           (-7 # 2) (21 # 2) (700 # 1) (500 # 1) eq_refl Hw Hh).
Defined.

Lemma sample_stem_writable :
  writable (fs sample_world)
    (Posixpath.join "output/evidence_logs" ("scene_1" +:+ "_FULL_REPORT.csv"))
  = true /\
  writable (fs sample_world)
    (Posixpath.join "output/visuals" ("scene_1" +:+ "_ANALYSIS.jpg"))
  = true.
Proof. vm_compute. split; reflexivity. Qed.

Lemma outputs_are_named_after_the_stem_witness :
  Py.rpartition Posixpath.sep "scene_1" = None /\
  Py.rpartition Posixpath.sep "png" = None /\
  Py.rpartition "." "png" = None /\
  Py.all_char "." "scene_1" = false /\
  fs sample_world !! Posixpath.join "crime_scenes" ("scene_1" +:+ "." +:+ "png")
  = Some (ImageFile sample_image) /\
  exists annotated_img csv_data w',
    _analyze_image sample_detector
      (Posixpath.join "crime_scenes" ("scene_1" +:+ "." +:+ "png"))
      "output/evidence_logs" "output/visuals" sample_world
    = (Return (Some (annotated_img, csv_data)), w') /\
    Forall (fun row => Image row = "scene_1") csv_data /\
    fs w' !! Posixpath.join "output/visuals" ("scene_1" +:+ "_ANALYSIS.jpg")
    = Some (ImageFile annotated_img) /\
    (csv_data <> [] ->
     fs w' !! Posixpath.join "output/evidence_logs"
                ("scene_1" +:+ "_FULL_REPORT.csv")
     = Some (CsvFile (sort_values_desc csv_data))).
Proof.
  do 4 (split; [reflexivity|]).
  split; [exact sample_scene_readable|].
  exact (outputs_are_named_after_the_stem sample_detector "crime_scenes"
           "scene_1" "png" "output/evidence_logs" "output/visuals"
           sample_world sample_image eq_refl eq_refl eq_refl eq_refl
           sample_scene_readable (proj1 sample_stem_writable)
           (proj2 sample_stem_writable)).
Defined.

Lemma sample_input_has_no_wildcard :
  has_magic (Posixpath.join "output" "input") = false.
Proof. reflexivity. Qed.

Lemma sample_process_directory_completes :
  process_directory sample_detector "crime_scenes" "output" sample_world
  = (Return tt,
     (process_directory sample_detector "crime_scenes" "output" sample_world).2).
Proof. vm_compute. reflexivity. Qed.

Lemma process_directory_only_makes_directories_witness :
  let w' :=
    (process_directory sample_detector "crime_scenes" "output" sample_world).2 in
  has_magic (Posixpath.join "output" "input") = false /\
  process_directory sample_detector "crime_scenes" "output" sample_world
  = (Return tt, w') /\
  isdir_in (fs w') (Posixpath.join "output" "evidence_logs") = true /\
  isdir_in (fs w') (Posixpath.join "output" "visuals") = true /\
  isdir_in (fs w') (Posixpath.join "output" "input") = true /\
  grown_by_directories (fs sample_world) (fs w') /\
  calls w'
  = (calls sample_world ++ [AnalyzeImage (Posixpath.join "output" "input")])%list.
Proof.
  split; [exact sample_input_has_no_wildcard|].
  split; [exact sample_process_directory_completes|].
  exact (process_directory_only_makes_directories sample_detector
           "crime_scenes" "output" sample_world _
           sample_input_has_no_wildcard sample_process_directory_completes).
Defined.

Lemma sample_output_root_has_room :
  forall name, name ∈ ["evidence_logs"; "visuals"; "input"] ->
    fs sample_world !! Posixpath.join "output" name = None \/
    fs sample_world !! Posixpath.join "output" name = Some Dir.
Proof.
  intros name Hname. set_unfold in Hname.
  destruct Hname as [->|[->|[->|[]]]]; vm_compute; auto.
Qed.

Lemma process_directory_completes_witness :
  "output" <> "" /\
  Py.endswith_char Posixpath.sep "output" = false /\
  has_magic (Posixpath.join "output" "input") = false /\
  fs sample_world !! "output" = Some Dir /\
  exists w',
    process_directory sample_detector "crime_scenes" "output" sample_world
    = (Return tt, w').
Proof.
  assert (Hne : "output" <> "") by discriminate.
  assert (Hdir : fs sample_world !! "output" = Some Dir)
    by (vm_compute; reflexivity).
  split; [exact Hne|]. split; [reflexivity|].
  split; [exact sample_input_has_no_wildcard|]. split; [exact Hdir|].
  exact (process_directory_completes sample_detector "crime_scenes" "output"
           sample_world Hne eq_refl sample_input_has_no_wildcard Hdir
           sample_output_root_has_room).
Defined.

Lemma download_is_the_saved_report_witness :
  fs sample_world !! "crime_scenes/scene_1.png" = Some (ImageFile sample_image) /\
  writable (fs sample_world)
    (report_path "output/evidence_logs"
       (base_name_of "crime_scenes/scene_1.png")) = true /\
  exists annotated_img csv_data w',
    _analyze_image sample_detector "crime_scenes/scene_1.png"
      "output/evidence_logs" "output/visuals" sample_world
    = (Return (Some (annotated_img, csv_data)), w') /\
    forall s, evidence_summary csv_data = Some s ->
      fs w' !! report_path "output/evidence_logs"
                 (base_name_of "crime_scenes/scene_1.png")
      = Some (CsvFile (df s)).
Proof.
  split; [exact sample_scene_readable|].
  split; [exact sample_report_writable|].
  exact (download_is_the_saved_report sample_detector
           "crime_scenes/scene_1.png" "output/evidence_logs" "output/visuals"
           sample_world sample_image sample_scene_readable
           sample_report_writable).
Defined.

Lemma persons_counts_the_person_badges_witness :
  fs sample_world !! "crime_scenes/scene_1.png" = Some (ImageFile sample_image) /\
  writable (fs sample_world)
    (report_path "output/evidence_logs"
       (base_name_of "crime_scenes/scene_1.png")) = true /\
  exists annotated_img csv_data w',
    _analyze_image sample_detector "crime_scenes/scene_1.png"
      "output/evidence_logs" "output/visuals" sample_world
    = (Return (Some (annotated_img, csv_data)), w') /\
    forall s, evidence_summary csv_data = Some s ->
      persons s
      = length (List.filter
                  (fun badge => String.eqb badge.1.1 "badge-person")
                  (evidence_badges s)).
Proof.
  split; [exact sample_scene_readable|].
  split; [exact sample_report_writable|].
  exact (persons_counts_the_person_badges sample_standard (Some sample_custom)
           "crime_scenes/scene_1.png" "output/evidence_logs" "output/visuals"
           sample_world sample_image sample_scene_readable
           sample_report_writable).
Defined.

(** ** Checks on concrete values *)

Example join_plain : Posixpath.join "out" "input" = "out/input".
Proof. reflexivity. Qed.

Example join_trailing_slash : Posixpath.join "out/" "input" = "out/input".
Proof. reflexivity. Qed.

Example join_absolute : Posixpath.join "out" "/input" = "/input".
Proof. reflexivity. Qed.

Example split_root : Posixpath.split "/a" = ("/", "a").
Proof. reflexivity. Qed.

Example split_nested : Posixpath.split "a/b//c.png" = ("a/b", "c.png").
Proof. reflexivity. Qed.

Example splitext_png : Posixpath.splitext "scene_1.png" = ("scene_1", ".png").
Proof. reflexivity. Qed.

Example splitext_hidden : Posixpath.splitext ".bashrc" = (".bashrc", "").
Proof. reflexivity. Qed.

Example splitext_dots :
  Posixpath.splitext "a.b/..c.tar.gz" = ("a.b/..c.tar", ".gz").
Proof. reflexivity. Qed.

Example int_truncates_toward_zero :
  Py.int (-7 # 2) = (-3)%Z /\ Py.int (7 # 2) = 3%Z.
Proof. split; reflexivity. Qed.

Example cutoff_is_strict :
  Py.gt float_0_30 float_0_30 = false /\ Py.gt (31 # 100) float_0_30 = true.
Proof. split; reflexivity. Qed.

Example makedirs_creates_ancestors :
  fs (os_makedirs "out/evidence_logs" {| fs := ∅; clock := 0; calls := [] |}).2
  = <["out/evidence_logs" := Dir]> (<["out" := Dir]> ∅).
Proof. vm_compute. reflexivity. Qed.

Example glob_of_a_directory_is_the_directory :
  (glob_glob "output/visuals" sample_world).1 = Return ["output/visuals"].
Proof. vm_compute. reflexivity. Qed.

Example sample_report_order :
  let run :=
    _analyze_image sample_detector "crime_scenes/scene_1.png"
      "output/evidence_logs" "output/visuals" sample_world in
  map (fun kv => (kv.1, map Evidence_Type kv.2)) (csv_files (fs run.2))
  = [("output/evidence_logs/scene_1_FULL_REPORT.csv",
      ["Person"; "Gun"; "Knife"])] /\
  match run.1 with
  | Return (Some (_, csv_data)) =>
      map Evidence_Type csv_data = ["Person"; "Knife"; "Gun"]
  | _ => False
  end.
Proof. vm_compute. split; reflexivity. Qed.
